(** * Footprint analysis: outlier classification and KPI attribution

    A shallow embedding of [src/footprint_analyzer.py].  Python floats are
    read as exact rationals ([Q]); the classifier is given a second time on
    binary64 numbers ([Doubles]), for the statements that rounding decides.
    Colours are the strings of the source. *)

From Stdlib Require Import QArith Qabs Lqa.
From Stdlib Require Floats.
From stdpp Require Import gmap strings list fin_maps.

Local Open Scope string_scope.
Local Open Scope list_scope.
Local Open Scope Q_scope.

(** ** Outlier classifier *)

Module Classifier.

(** [red_pallete] and [green_pallete], lines 38-39. *)
Definition red_pallete : list string :=
  ["#F15A59"; "#ED2B2A"; "#D21312"; "#850000"].
Definition green_pallete : list string :=
  ["#D0E7D2"; "#B0D9B1"; "#79AC78"; "#618264"].

(** [pallete[i]] for the literal indices 0..3 of the source, all in range. *)
Definition at_index (pallete : list string) (i : nat) : string :=
  nth i pallete "".

(** Python's comparisons on numbers. *)
Definition Qleb (x y : Q) : bool := Qle_bool x y.
Definition Qgeb (x y : Q) : bool := Qle_bool y x.
Definition Qgtb (x y : Q) : bool := negb (Qle_bool x y).
Definition Qltb (x y : Q) : bool := negb (Qle_bool y x).

(** [determine_color], lines 71-123. *)
Definition determine_color (val upper_bound lower_bound sd : Q) (reverse : bool)
  : string :=
  if reverse then
    if Qgtb val upper_bound then
      if Qleb val (upper_bound + sd) then at_index green_pallete 0
      else if Qleb val (upper_bound + 2 * sd) then at_index green_pallete 1
      else if Qleb val (upper_bound + 3 * sd) then at_index green_pallete 2
      else at_index green_pallete 3
    else if Qltb val lower_bound then
      if Qgeb val (lower_bound - sd) then at_index red_pallete 0
      else if Qgeb val (lower_bound - 2 * sd) then at_index red_pallete 1
      else if Qgeb val (lower_bound - 3 * sd) then at_index red_pallete 2
      else at_index red_pallete 3
    else "blue"
  else
    if Qgtb val upper_bound then
      if Qleb val (upper_bound + sd) then at_index red_pallete 0
      else if Qleb val (upper_bound + 2 * sd) then at_index red_pallete 1
      else if Qleb val (upper_bound + 3 * sd) then at_index red_pallete 2
      else at_index red_pallete 3
    else if Qltb val lower_bound then
      if Qgeb val (lower_bound - sd) then at_index green_pallete 0
      else if Qgeb val (lower_bound - 2 * sd) then at_index green_pallete 1
      else if Qgeb val (lower_bound - 3 * sd) then at_index green_pallete 2
      else at_index green_pallete 3
    else "blue".

(** The colour given to one value, lines 61-64 (and again 153-156): the
    bounds are derived from the mean and the standard deviation, the
    direction from the KPI name. *)
Definition fp_color (val mean sd : Q) (kpi : string) : string :=
  if String.eqb kpi "OEE"
  then determine_color val (mean + (sd / 2)) (mean - sd) sd true
  else determine_color val (mean + sd) (mean - (sd / 2)) sd false.

(** [calculate_outlier_footprints], lines 41-69.  [footprints[i]] raises
    when [footprints] is shorter than [values]: [None]. *)
Fixpoint outliers_from {A : Type} (footprints : list A) (values : list Q)
    (mean sd : Q) (kpi : string) : option (list A * list string) :=
  match values with
  | [] => Some ([], [])
  | val :: values' =>
      match footprints with
      | [] => None
      | fp :: footprints' =>
          match outliers_from footprints' values' mean sd kpi with
          | None => None
          | Some (outliers, outlier_colors) =>
              let c := fp_color val mean sd kpi in
              if String.eqb c "blue" then Some (outliers, outlier_colors)
              else Some (fp :: outliers, c :: outlier_colors)
          end
      end
  end.

Definition calculate_outlier_footprints {A : Type} (footprints : list A)
    (values : list Q) (mean sd : Q) (kpi : string)
  : option (list A * list string) :=
  outliers_from footprints values mean sd kpi.

(** The specification's [classify(value, baseline_mean, spread, reversed)]:
    the two calls of [determine_color] above, selected by the flag. *)
Definition upper (mean spread : Q) (reversed : bool) : Q :=
  if reversed then mean + spread / 2 else mean + spread.
Definition lower (mean spread : Q) (reversed : bool) : Q :=
  if reversed then mean - spread else mean - spread / 2.
Definition classify (value mean spread : Q) (reversed : bool) : string :=
  determine_color value (upper mean spread reversed)
    (lower mean spread reversed) spread reversed.

(** Reading a colour back as a band. *)
Fixpoint index_of (c : string) (pallete : list string) : option nat :=
  match pallete with
  | [] => None
  | x :: rest =>
      if String.eqb c x then Some O
      else match index_of c rest with
           | Some i => Some (S i)
           | None => None
           end
  end.

(** Severity level 1..4 of a palette colour; [None] for the neutral
    sentinel (and any other string). *)
Definition severity (c : string) : option nat :=
  match index_of c red_pallete with
  | Some i => Some (S i)
  | None =>
      match index_of c green_pallete with
      | Some i => Some (S i)
      | None => None
      end
  end.

Inductive palette := Red | Green.

Definition palette_of (c : string) : option palette :=
  match index_of c red_pallete with
  | Some _ => Some Red
  | None =>
      match index_of c green_pallete with
      | Some _ => Some Green
      | None => None
      end
  end.

(** Exchange of the two palettes at equal index; other strings unchanged. *)
Definition swap_palette (c : string) : string :=
  match index_of c red_pallete with
  | Some i => at_index green_pallete i
  | None =>
      match index_of c green_pallete with
      | Some i => at_index red_pallete i
      | None => c
      end
  end.

End Classifier.

(** ** The classifier on doubles *)

Module Doubles.
Import Floats Classifier.
Local Open Scope float_scope.

(** Python's comparisons [x > y] and [x >= y] on doubles. *)
Definition gtb (x y : float) : bool := y <? x.
Definition geb (x y : float) : bool := y <=? x.

(** [determine_color], lines 71-123, with the additions, subtractions and
    multiplications of binary64. *)
Definition determine_color (val upper_bound lower_bound sd : float)
    (reverse : bool) : string :=
  if reverse then
    if gtb val upper_bound then
      if val <=? upper_bound + sd then at_index green_pallete 0
      else if val <=? upper_bound + 2 * sd then at_index green_pallete 1
      else if val <=? upper_bound + 3 * sd then at_index green_pallete 2
      else at_index green_pallete 3
    else if val <? lower_bound then
      if geb val (lower_bound - sd) then at_index red_pallete 0
      else if geb val (lower_bound - 2 * sd) then at_index red_pallete 1
      else if geb val (lower_bound - 3 * sd) then at_index red_pallete 2
      else at_index red_pallete 3
    else "blue"
  else
    if gtb val upper_bound then
      if val <=? upper_bound + sd then at_index red_pallete 0
      else if val <=? upper_bound + 2 * sd then at_index red_pallete 1
      else if val <=? upper_bound + 3 * sd then at_index red_pallete 2
      else at_index red_pallete 3
    else if val <? lower_bound then
      if geb val (lower_bound - sd) then at_index green_pallete 0
      else if geb val (lower_bound - 2 * sd) then at_index green_pallete 1
      else if geb val (lower_bound - 3 * sd) then at_index green_pallete 2
      else at_index green_pallete 3
    else "blue".

(** The bounds of lines 61-64 and the specification's [classify]. *)
Definition upper (mean spread : float) (reversed : bool) : float :=
  if reversed then mean + spread / 2 else mean + spread.
Definition lower (mean spread : float) (reversed : bool) : float :=
  if reversed then mean - spread else mean - spread / 2.
Definition classify (value mean spread : float) (reversed : bool) : string :=
  determine_color value (upper mean spread reversed)
    (lower mean spread reversed) spread reversed.

(** The number a finite double stands for, counted in units of 2^-1074 (the
    smallest positive double); none for an infinity or a NaN. *)
Definition units_of (x : spec_float) : option Z :=
  match x with
  | S754_zero _ => Some 0%Z
  | S754_finite s m e =>
      Some ((if s then Z.neg m else Z.pos m) * 2 ^ (e + 1074))%Z
  | _ => None
  end.

Definition units (x : float) : option Z := units_of (Prim2SF x).

(** [x] is finite and is exactly [z] units. *)
Definition stands_for (x : float) (z : Z) : bool :=
  match units x with
  | Some a => (a =? z)%Z
  | None => false
  end.

(** No operation of [classify (mean + spread + eps) mean spread false] and
    of [classify (mean - spread - eps) mean spread true] rounds: the two
    arguments, the bounds, the multiples of the spread and the thresholds
    are finite and are the exact sums, differences and products. *)
Definition unrounded (mean spread eps : float) : bool :=
  match units mean, units spread, units eps, units (spread / 2) with
  | Some m, Some s, Some e, Some h =>
      (2 * h =? s)%Z &&
      stands_for (mean + spread / 2) (m + h) &&
      stands_for (2 * spread) (2 * s) &&
      stands_for (3 * spread) (3 * s) &&
      stands_for (mean + spread) (m + s) &&
      stands_for (mean + spread + eps) (m + s + e) &&
      stands_for (mean + spread + spread) (m + s + s) &&
      stands_for (mean + spread + 2 * spread) (m + s + 2 * s) &&
      stands_for (mean + spread + 3 * spread) (m + s + 3 * s) &&
      stands_for (mean - spread) (m - s) &&
      stands_for (mean - spread - eps) (m - s - e) &&
      stands_for (mean - spread - spread) (m - s - s) &&
      stands_for (mean - spread - 2 * spread) (m - s - 2 * s) &&
      stands_for (mean - spread - 3 * spread) (m - s - 3 * s)
  | _, _, _, _ => false
  end.

End Doubles.

(** ** Data frames, as far as the analysis uses them *)

Module Frame.

(** A cell of a frame: null ([NaN], [NaT], [None]), a number (timestamps and
    durations are numbers of seconds) or a string. *)
Inductive cell := NA | Num (q : Q) | Str (s : string).

(** Column labels and the rows below them, positionally. *)
Record DataFrame := { columns : list string; rows : list (list cell) }.

(** What the pandas accesses of the source and the discovery of footprints
    can raise. *)
Inductive error := KeyError (label : string) | IndexError | ValueError.

Inductive result (A : Type) := Ok (a : A) | Raise (e : error).
Arguments Ok {A} a.
Arguments Raise {A} e.

#[export] Instance result_bind : MBind result :=
  fun A B (k : A -> result B) (r : result A) =>
    match r with
    | Ok a => k a
    | Raise e => Raise e
    end.

(** A loop [for x in xs: st = body(st, x)] whose body may raise. *)
Fixpoint for_each {A S : Type} (body : S -> A -> result S) (xs : list A)
    (st : S) : result S :=
  match xs with
  | [] => Ok st
  | x :: xs' => st' ← body st x; for_each body xs' st'
  end.

Fixpoint position (label : string) (cols : list string) : option nat :=
  match cols with
  | [] => None
  | c :: cols' =>
      if String.eqb label c then Some O
      else match position label cols' with
           | Some i => Some (S i)
           | None => None
           end
  end.

Definition cell_at (i : nat) (row : list cell) : cell := nth i row NA.

(** [data[label]]: the column, or [KeyError]. *)
Definition column (data : DataFrame) (label : string) : result (list cell) :=
  match position label (columns data) with
  | None => Raise (KeyError label)
  | Some i => Ok (map (cell_at i) (rows data))
  end.

Definition notna (c : cell) : bool :=
  match c with
  | NA => false
  | _ => true
  end.

(** [c == value] for a string [value]; a null never compares equal. *)
Definition cell_is (value : string) (c : cell) : bool :=
  match c with
  | Str s => String.eqb s value
  | _ => false
  end.

(** [data.loc[mask]] for a mask computed from the column [label]. *)
Definition loc_by (keep : cell -> bool) (data : DataFrame) (label : string)
  : result DataFrame :=
  match position label (columns data) with
  | None => Raise (KeyError label)
  | Some i =>
      Ok {| columns := columns data;
            rows := List.filter (fun row => keep (cell_at i row)) (rows data) |}
  end.

(** [data.loc[data[label].notna()]] *)
Definition loc_notna := loc_by notna.

(** [data.loc[data[label] == value]] *)
Definition loc_eq (data : DataFrame) (label value : string) := loc_by (cell_is value) data label.

(** [data.rename(columns=mapper)]: labels absent from the mapper stay. *)
Definition rename (mapper : string -> string) (data : DataFrame) : DataFrame :=
  {| columns := map mapper (columns data); rows := rows data |}.

(** [series.iloc[0]] *)
Definition iloc0 {A : Type} (series : list A) : result A :=
  match series with
  | [] => Raise IndexError
  | x :: _ => Ok x
  end.

End Frame.

(** ** Footprint extraction and KPI attribution *)

Module Analyzer.
Import Frame.

(** A footprint: predecessor and successor operation. *)
Definition footprint : Type := string * string.

(** The two library calls whose results the analysis consumes:
    [pm4py.discover_footprints(frame)['dfg']], which may raise and of which
    only the keys are used otherwise (in the dictionary's iteration order;
    the keys of a dictionary are distinct), and the ['mean'] aggregation of
    pandas over one column. *)
Class Externals := {
  discover_footprints : DataFrame -> result (list footprint);
  discover_footprints_keys :
    forall frame dfg, discover_footprints frame = Ok dfg -> NoDup dfg;
  mean : list cell -> Q
}.

(** Class [FootprintKpi], lines 6-22. *)
Record FootprintKpi := {
  oee : Q;
  lead_time : Q;
  malfunction_duration : Q;
  rejection_count : Q;
  count : Z
}.

(** One row of a KPI table ([kpi_data], [kpi_data_mnummer]): the four
    columns the analysis reads. *)
Record KpiRow := {
  OEE : Q;
  Lead_Time : Q;
  Malfunction_Duration : Q;
  Rejected_Materials : Q
}.

(** The dictionary literal passed to [rename], lines 192 and 270; a key
    written twice keeps its last value. *)
Definition pm4py_columns (time case_id activity : string) (label : string)
  : string :=
  if String.eqb label activity then "concept:name"
  else if String.eqb label case_id then "case:concept:name"
  else if String.eqb label time then "time:timestamp"
  else label.

(** The accumulators of one run: [footprint_kpis] and [footprint_contracts]. *)
Record accumulators := {
  footprint_kpis : gmap footprint FootprintKpi;
  footprint_contracts : gmap footprint (list string)
}.

(** The dictionaries [kpi_values] and [diff_to_soll], lines 334-335. *)
Record KpiValues := {
  kv_fp : list footprint;
  kv_label : list string;
  kv_OEE : list Q;
  kv_Lead_Time : list Q;
  kv_Malfunction_Duration : list Q;
  kv_Rejected_Materials : list Q
}.

Record DiffToSoll := {
  d_Footprint : list string;
  d_OEE : list Q;
  d_Lead_Time : list Q;
  d_Malfunction_Duration : list Q;
  d_Rejected_Materials : list Q
}.

Section WithExternals.
Context `{Externals}.

(** The frame handed to the discovery primitive by [extract_footprints]
    (the variable [temp], lines 191-192). *)
Definition extract_footprints_temp (data : DataFrame)
    (time case_id activity : string) : result DataFrame :=
  temp ← loc_notna data "End Date Actual";
  Ok (rename (pm4py_columns time case_id activity) temp).

(** [extract_footprints], lines 177-195. *)
Definition extract_footprints (data : DataFrame)
    (time case_id activity : string) : result (list footprint) :=
  temp ← extract_footprints_temp data time case_id activity;
  discover_footprints temp.

(** The grouped aggregation of lines 255-266 on [pg_df_filtered], every row
    of which carries the contract selected in line 252: one group when there
    are rows, none otherwise.  Durations are averaged, then read in seconds. *)
Definition contract_kpi_data (pg_df_filtered : DataFrame) : result (list KpiRow) :=
  column pg_df_filtered "Contract" ;;
  c_oee ← column pg_df_filtered "OEE";
  c_lead ← column pg_df_filtered "Lead Time";
  c_malf ← column pg_df_filtered "Malfunction Duration";
  c_rej ← column pg_df_filtered "Rejected Materials";
  Ok (match rows pg_df_filtered with
      | [] => []
      | _ :: _ =>
          [ {| OEE := mean c_oee;
               Lead_Time := mean c_lead;
               Malfunction_Duration := mean c_malf;
               Rejected_Materials := mean c_rej |} ]
      end).

(** Lines 252-272: the KPI table of one contract and the footprints
    discovered on its finished operations. *)
Definition contract_view (data : DataFrame) (contract : string)
  : result (list KpiRow * list footprint) :=
  pg_df_filtered ← loc_eq data "Contract" contract;
  kpi_data ← contract_kpi_data pg_df_filtered;
  pg_df_filtered' ← loc_notna pg_df_filtered "End Date Actual";
  footprints ←
    discover_footprints
      (rename (pm4py_columns "End Date Actual" "Contract" "Operation RelNr")
         pg_df_filtered');
  Ok (kpi_data, footprints).

(** What one contract brings to the attribution: its footprints and the
    first row of its KPI table. *)
Definition contract_footprints (data : DataFrame) (contract : string)
  : list footprint :=
  match contract_view data contract with
  | Ok view => snd view
  | Raise _ => []
  end.

Definition contract_means (data : DataFrame) (contract : string)
  : option KpiRow :=
  match contract_view data contract with
  | Ok view => head (fst view)
  | Raise _ => None
  end.

(** The contracts, in processing order, whose own footprints contain [fp]. *)
Definition contributors (data : DataFrame) (fp : footprint)
    (contracts : list string) : list string :=
  List.filter (fun c => bool_decide (fp ∈ contract_footprints data c)) contracts.

End WithExternals.

(** The body of the loop of lines 277-291, for one baseline footprint. *)
Definition attribute (kpi_data : list KpiRow) (contract : string)
    (footprints_dfg : list footprint) (acc : accumulators) (fp : footprint)
  : result accumulators :=
  if bool_decide (fp ∈ footprints_dfg) then
    kpis' ←
      match footprint_kpis acc !! fp with
      | None =>
          row ← iloc0 kpi_data;
          Ok (<[fp := {| oee := OEE row;
                         lead_time := Lead_Time row;
                         malfunction_duration := Malfunction_Duration row;
                         rejection_count := Rejected_Materials row;
                         count := 1 |}]> (footprint_kpis acc))
      | Some k =>
          row ← iloc0 kpi_data;
          Ok (<[fp := {| oee := oee k + OEE row;
                         lead_time := lead_time k + Lead_Time row;
                         malfunction_duration :=
                           malfunction_duration k + Malfunction_Duration row;
                         rejection_count :=
                           rejection_count k + Rejected_Materials row;
                         count := (count k + 1)%Z |}]> (footprint_kpis acc))
      end;
    Ok {| footprint_kpis := kpis';
          footprint_contracts :=
            match footprint_contracts acc !! fp with
            | None => <[fp := [contract]]> (footprint_contracts acc)
            | Some cs => <[fp := cs ++ [contract]]> (footprint_contracts acc)
            end |}
  else Ok acc.

(** Labels of the plot, line 324. *)
Definition label (fp : footprint) : string :=
  (fst fp ++ " -> " ++ snd fp)%string.

(** The body of the loop of lines 306-332. *)
Definition finalize_step (kpis : gmap footprint FootprintKpi)
    (kpi_data_mnummer : list KpiRow) (out : KpiValues * DiffToSoll)
    (fp : footprint) : result (KpiValues * DiffToSoll) :=
  match kpis !! fp with
  | None => Ok out
  | Some k =>
      let v_oee := oee k / inject_Z (count k) in
      let v_lead_time := lead_time k / inject_Z (count k) in
      let v_malfunction_duration := malfunction_duration k / inject_Z (count k) in
      let v_rejection_count := rejection_count k / inject_Z (count k) in
      soll ← iloc0 kpi_data_mnummer;
      let (kv, d) := out in
      Ok ({| kv_fp := kv_fp kv ++ [fp];
             kv_label := kv_label kv ++ [label fp];
             kv_OEE := kv_OEE kv ++ [v_oee];
             kv_Lead_Time := kv_Lead_Time kv ++ [v_lead_time];
             kv_Malfunction_Duration :=
               kv_Malfunction_Duration kv ++ [v_malfunction_duration];
             kv_Rejected_Materials :=
               kv_Rejected_Materials kv ++ [v_rejection_count] |},
          {| d_Footprint := d_Footprint d ++ [label fp];
             d_OEE := d_OEE d ++ [v_oee - OEE soll];
             d_Lead_Time := d_Lead_Time d ++ [v_lead_time - Lead_Time soll];
             d_Malfunction_Duration :=
               d_Malfunction_Duration d
                 ++ [v_malfunction_duration - Malfunction_Duration soll];
             d_Rejected_Materials :=
               d_Rejected_Materials d
                 ++ [v_rejection_count - Rejected_Materials soll] |})
  end.

Definition no_accumulators : accumulators :=
  {| footprint_kpis := ∅; footprint_contracts := ∅ |}.

Definition no_tables : KpiValues * DiffToSoll :=
  ({| kv_fp := []; kv_label := []; kv_OEE := []; kv_Lead_Time := [];
      kv_Malfunction_Duration := []; kv_Rejected_Materials := [] |},
   {| d_Footprint := []; d_OEE := []; d_Lead_Time := [];
      d_Malfunction_Duration := []; d_Rejected_Materials := [] |}).

Section WithExternals.
Context `{Externals}.

(** The body of the loop over the contracts, lines 249-291. *)
Definition contract_step (data : DataFrame) (extracted_footprints : list footprint)
    (acc : accumulators) (contract : string) : result accumulators :=
  view ← contract_view data contract;
  for_each (attribute (fst view) contract (snd view)) extracted_footprints acc.

(** Lines 246-291. *)
Definition accumulate (data : DataFrame) (contracts : list string)
    (extracted_footprints : list footprint) : result accumulators :=
  for_each (contract_step data extracted_footprints) contracts no_accumulators.

(** Lines 295-335. *)
Definition finalize (extracted_footprints : list footprint)
    (kpis : gmap footprint FootprintKpi) (kpi_data_mnummer : list KpiRow)
  : result (KpiValues * DiffToSoll) :=
  for_each (finalize_step kpis kpi_data_mnummer) extracted_footprints no_tables.

(** [analyze_footprints_by_kpi], lines 227-337. *)
Definition analyze_footprints_by_kpi (data : DataFrame) (contracts : list string)
    (kpi_data_mnummer : list KpiRow)
  : result (KpiValues * gmap footprint (list string) * DiffToSoll) :=
  extracted_footprints ←
    extract_footprints data "End Date Actual" "Contract" "Operation RelNr";
  acc ← accumulate data contracts extracted_footprints;
  tables ← finalize extracted_footprints (footprint_kpis acc) kpi_data_mnummer;
  Ok (fst tables, footprint_contracts acc, snd tables).

End WithExternals.

(** *** Vocabulary of the statements *)

Fixpoint Qsum (xs : list Q) : Q :=
  match xs with
  | [] => 0
  | x :: xs' => x + Qsum xs'
  end.

Definition kpi_eq (a b : KpiRow) : Prop :=
  OEE a == OEE b /\ Lead_Time a == Lead_Time b /\
  Malfunction_Duration a == Malfunction_Duration b /\
  Rejected_Materials a == Rejected_Materials b.

(** Sum of the rows divided by their number, KPI by KPI. *)
Definition mean_of_rows (rs : list KpiRow) : KpiRow :=
  let n := inject_Z (Z.of_nat (length rs)) in
  {| OEE := Qsum (map OEE rs) / n;
     Lead_Time := Qsum (map Lead_Time rs) / n;
     Malfunction_Duration := Qsum (map Malfunction_Duration rs) / n;
     Rejected_Materials := Qsum (map Rejected_Materials rs) / n |}.

Definition half_sum (a b : KpiRow) : KpiRow :=
  {| OEE := (OEE a + OEE b) / 2;
     Lead_Time := (Lead_Time a + Lead_Time b) / 2;
     Malfunction_Duration := (Malfunction_Duration a + Malfunction_Duration b) / 2;
     Rejected_Materials := (Rejected_Materials a + Rejected_Materials b) / 2 |}.

Definition kpi_minus (a b : KpiRow) : KpiRow :=
  {| OEE := OEE a - OEE b;
     Lead_Time := Lead_Time a - Lead_Time b;
     Malfunction_Duration := Malfunction_Duration a - Malfunction_Duration b;
     Rejected_Materials := Rejected_Materials a - Rejected_Materials b |}.

(** The entries at index [i] of the parallel sequences of the output: the
    footprint, its four means and its four deltas. *)
Definition row_at (kv : KpiValues) (d : DiffToSoll) (i : nat)
  : option (footprint * KpiRow * KpiRow) :=
  fp ← kv_fp kv !! i;
  v1 ← kv_OEE kv !! i;
  v2 ← kv_Lead_Time kv !! i;
  v3 ← kv_Malfunction_Duration kv !! i;
  v4 ← kv_Rejected_Materials kv !! i;
  d1 ← d_OEE d !! i;
  d2 ← d_Lead_Time d !! i;
  d3 ← d_Malfunction_Duration d !! i;
  d4 ← d_Rejected_Materials d !! i;
  Some (fp,
        {| OEE := v1; Lead_Time := v2; Malfunction_Duration := v3;
           Rejected_Materials := v4 |},
        {| OEE := d1; Lead_Time := d2; Malfunction_Duration := d3;
           Rejected_Materials := d4 |}).

(** *** Vocabulary of the invariants *)

(** The accumulator after one more contribution. *)
Definition add_row (k : option FootprintKpi) (row : KpiRow) : FootprintKpi :=
  match k with
  | None =>
      {| oee := OEE row; lead_time := Lead_Time row;
         malfunction_duration := Malfunction_Duration row;
         rejection_count := Rejected_Materials row; count := 1 |}
  | Some k =>
      {| oee := oee k + OEE row; lead_time := lead_time k + Lead_Time row;
         malfunction_duration := malfunction_duration k + Malfunction_Duration row;
         rejection_count := rejection_count k + Rejected_Materials row;
         count := (count k + 1)%Z |}
  end.

(** The running sums of an accumulator against the rows it received. *)
Definition sums (k : FootprintKpi) (rs : list KpiRow) : Prop :=
  oee k == Qsum (map OEE rs) /\
  lead_time k == Qsum (map Lead_Time rs) /\
  malfunction_duration k == Qsum (map Malfunction_Duration rs) /\
  rejection_count k == Qsum (map Rejected_Materials rs) /\
  count k = Z.of_nat (length rs).

(** The means read off an accumulator, lines 312-315. *)
Definition means_of (k : FootprintKpi) : KpiRow :=
  {| OEE := oee k / inject_Z (count k);
     Lead_Time := lead_time k / inject_Z (count k);
     Malfunction_Duration := malfunction_duration k / inject_Z (count k);
     Rejected_Materials := rejection_count k / inject_Z (count k) |}.

(** The output tables as a sequence of rows. *)
Abbreviation report := (footprint * KpiRow * KpiRow)%type (only parsing).

Definition tables_of (rs : list report) : KpiValues * DiffToSoll :=
  ({| kv_fp := map (fun r => r.1.1) rs;
      kv_label := map (fun r => label r.1.1) rs;
      kv_OEE := map (fun r => OEE r.1.2) rs;
      kv_Lead_Time := map (fun r => Lead_Time r.1.2) rs;
      kv_Malfunction_Duration := map (fun r => Malfunction_Duration r.1.2) rs;
      kv_Rejected_Materials := map (fun r => Rejected_Materials r.1.2) rs |},
   {| d_Footprint := map (fun r => label r.1.1) rs;
      d_OEE := map (fun r => OEE r.2) rs;
      d_Lead_Time := map (fun r => Lead_Time r.2) rs;
      d_Malfunction_Duration := map (fun r => Malfunction_Duration r.2) rs;
      d_Rejected_Materials := map (fun r => Rejected_Materials r.2) rs |}).

(** Every row of the tables stands for a baseline footprint that owns an
    accumulator, and carries its means and their distance to the target. *)
Definition reported (base : list footprint)
    (kpis : gmap footprint FootprintKpi) (kpi_data_mnummer : list KpiRow)
    (r : report) : Prop :=
  exists k soll,
    r.1.1 ∈ base /\ kpis !! r.1.1 = Some k /\
    head kpi_data_mnummer = Some soll /\
    r = (r.1.1, means_of k, kpi_minus (means_of k) soll).

Section Invariants.
Context `{Externals}.

(** After the contracts [done]: no accumulator and no contract list for a
    footprint outside the baseline or without a contributor, ... *)
Definition absent_ok (data : DataFrame) (base : list footprint)
    (done : list string) (acc : accumulators) : Prop :=
  forall fp,
    fp ∉ base \/ contributors data fp done = [] ->
    footprint_kpis acc !! fp = None /\ footprint_contracts acc !! fp = None.

(** ... and for a baseline footprint with contributors, the list of these
    and the sums of their rows. *)
Definition present_ok (data : DataFrame) (base : list footprint)
    (done : list string) (acc : accumulators) : Prop :=
  forall fp,
    fp ∈ base -> contributors data fp done ≠ [] ->
    footprint_contracts acc !! fp = Some (contributors data fp done) /\
    exists k rs,
      footprint_kpis acc !! fp = Some k /\
      Forall2 (fun c r => contract_means data c = Some r)
        (contributors data fp done) rs /\
      sums k rs.

End Invariants.

(** The frame handed to the discovery primitive for a contract of which no
    row is kept (lines 252 and 269-270): the columns of the data, renamed,
    and no row. *)
Definition without_events (data : DataFrame) : DataFrame :=
  rename (pm4py_columns "End Date Actual" "Contract" "Operation RelNr")
    {| columns := columns data; rows := [] |}.

(** Some sequence of the deltas table has an entry at index [i]. *)
Definition delta_entry (d : DiffToSoll) (i : nat) : Prop :=
  (i < length (d_Footprint d))%nat \/ (i < length (d_OEE d))%nat \/
  (i < length (d_Lead_Time d))%nat \/
  (i < length (d_Malfunction_Duration d))%nat \/
  (i < length (d_Rejected_Materials d))%nat.

End Analyzer.

(** ** A reference instance of the library calls *)

Module Reference.
Import Frame Analyzer.

(** The discovery primitive as the specification describes it: the events
    of each case ordered by timestamp, every pair of adjacent activities,
    without repetition.  Rows lacking a case, an activity or a timestamp
    are not events.  On a frame without rows the library raises instead:
    it takes the length of the shortest case, there is none, and the
    conversion of the missing minimum to an integer is a [ValueError]. *)
Definition event : Type := string * string * Q.
Definition event_case (e : event) : string := fst (fst e).
Definition event_activity (e : event) : string := snd (fst e).
Definition event_time (e : event) : Q := snd e.

Definition events_of (frame : DataFrame) : list event :=
  match position "case:concept:name" (columns frame),
        position "concept:name" (columns frame),
        position "time:timestamp" (columns frame) with
  | Some i, Some j, Some k =>
      flat_map (fun row =>
                  match cell_at i row, cell_at j row, cell_at k row with
                  | Str c, Str a, Num t => [(c, a, t)]
                  | _, _, _ => []
                  end) (rows frame)
  | _, _, _ => []
  end.

Fixpoint insert_by_time (e : event) (sorted : list event) : list event :=
  match sorted with
  | [] => [e]
  | x :: rest =>
      if Qle_bool (event_time x) (event_time e)
      then x :: insert_by_time e rest
      else e :: x :: rest
  end.

Definition sort_by_time (es : list event) : list event :=
  fold_left (fun sorted e => insert_by_time e sorted) es [].

Fixpoint adjacent (activities : list string) : list footprint :=
  match activities with
  | a :: (b :: _) as rest => (a, b) :: adjacent rest
  | _ => []
  end.

Definition trace (es : list event) (c : string) : list string :=
  map event_activity
    (sort_by_time (List.filter (fun e => String.eqb (event_case e) c) es)).

Definition directly_follows (frame : DataFrame) : list footprint :=
  let es := events_of frame in
  remove_dups
    (flat_map (fun c => adjacent (trace es c)) (remove_dups (map event_case es))).

Definition on_rows {A : Type} (frame : DataFrame) (a : A) : result A :=
  match rows frame with
  | [] => Raise ValueError
  | _ :: _ => Ok a
  end.

(** What [on_rows] returns is the value given. *)
Definition on_rows_Ok {A : Type} (frame : DataFrame) (a b : A)
  : on_rows frame a = Ok b -> b = a :=
  match rows frame as r
    return (match r with [] => Raise ValueError | _ :: _ => Ok a end = Ok b
            -> b = a)
  with
  | [] => fun Hrun =>
      match Hrun in (_ = r)
        return (match r with Ok _ => b = a | Raise _ => True end)
      with eq_refl => I end
  | _ :: _ => fun Hrun =>
      match Hrun in (_ = r)
        return (match r with Ok b' => b' = a | Raise _ => True end)
      with eq_refl => eq_refl end
  end.

Definition reference_discover (frame : DataFrame) : result (list footprint) :=
  on_rows frame (directly_follows frame).

(** The mean of the numbers of a column, nulls skipped. *)
Definition numbers (cs : list cell) : list Q :=
  flat_map (fun c => match c with Num q => [q] | _ => [] end) cs.

Definition reference_mean (cs : list cell) : Q :=
  fold_left Qplus (numbers cs) 0 / inject_Z (Z.of_nat (length (numbers cs))).

#[export] Instance reference : Externals :=
  {| discover_footprints := reference_discover;
     discover_footprints_keys :=
       fun frame dfg Hrun =>
         eq_ind_r NoDup (NoDup_remove_dups _) (on_rows_Ok _ _ _ Hrun);
     mean := reference_mean |}.

(** Two contracts running the operations A then B, a third with a single
    finished operation, and a contract whose only operation is unfinished.
    The contracts in scope are those with a finished operation. *)
Definition production_columns : list string :=
  ["Contract"; "Operation RelNr"; "End Date Actual"; "OEE"; "Lead Time";
   "Malfunction Duration"; "Rejected Materials"].

Definition production : DataFrame :=
  {| columns := production_columns;
     rows :=
       [ [Str "X"; Str "A"; Num 10; Num (9 # 10); Num 100; Num 4; Num 2];
         [Str "X"; Str "B"; Num 20; Num (9 # 10); Num 100; Num 4; Num 2];
         [Str "Y"; Str "A"; Num 30; Num (7 # 10); Num 300; Num 8; Num 0];
         [Str "Y"; Str "B"; Num 40; Num (7 # 10); Num 300; Num 8; Num 0];
         [Str "Z"; Str "B"; Num 50; Num (5 # 10); Num 200; Num 0; Num 1];
         [Str "W"; Str "A"; NA; Num (6 # 10); Num 50; Num 0; Num 0] ] |}.

Definition soll : list KpiRow :=
  [ {| OEE := 75 # 100; Lead_Time := 200; Malfunction_Duration := 5;
       Rejected_Materials := 1 |} ].

Definition contracts_in_scope : list string := ["X"; "Y"; "Z"].

Definition production_kv : KpiValues :=
  Eval vm_compute in
    match analyze_footprints_by_kpi production contracts_in_scope soll with
    | Ok out => out.1.1
    | Raise _ => no_tables.1
    end.

Definition production_fc : gmap footprint (list string) :=
  Eval vm_compute in
    match analyze_footprints_by_kpi production contracts_in_scope soll with
    | Ok out => out.1.2
    | Raise _ => ∅
    end.

Definition production_d : DiffToSoll :=
  Eval vm_compute in
    match analyze_footprints_by_kpi production contracts_in_scope soll with
    | Ok out => out.2
    | Raise _ => no_tables.2
    end.

(** A discovery primitive with a noise filter: a pair is kept when at least
    half of the cases of the frame show it.  A pair seen in one contract only
    is then found on that contract's events and not on the whole population. *)
Definition majority_follows (frame : DataFrame) : list footprint :=
  let es := events_of frame in
  let cases := remove_dups (map event_case es) in
  filter
    (fun fp =>
       (length cases
        <= 2 * length (List.filter
                         (fun c => bool_decide (fp ∈ adjacent (trace es c)))
                         cases))%nat)
    (directly_follows frame).

Definition majority_discover (frame : DataFrame) : result (list footprint) :=
  on_rows frame (majority_follows frame).

Definition filtering : Externals :=
  {| discover_footprints := majority_discover;
     discover_footprints_keys :=
       fun frame dfg Hrun =>
         eq_ind_r NoDup (NoDup_filter _ _ (NoDup_remove_dups _))
           (on_rows_Ok _ _ _ Hrun);
     mean := reference_mean |}.

(** Two contracts running A then B and one running B then C. *)
Definition mixed : DataFrame :=
  {| columns := production_columns;
     rows :=
       [ [Str "X"; Str "A"; Num 10; Num (9 # 10); Num 100; Num 4; Num 2];
         [Str "X"; Str "B"; Num 20; Num (9 # 10); Num 100; Num 4; Num 2];
         [Str "Y"; Str "A"; Num 30; Num (7 # 10); Num 300; Num 8; Num 0];
         [Str "Y"; Str "B"; Num 40; Num (7 # 10); Num 300; Num 8; Num 0];
         [Str "Z"; Str "B"; Num 50; Num (5 # 10); Num 200; Num 0; Num 1];
         [Str "Z"; Str "C"; Num 60; Num (5 # 10); Num 200; Num 0; Num 1] ] |}.

Definition mixed_kv : KpiValues :=
  Eval vm_compute in
    match analyze_footprints_by_kpi (H := filtering) mixed ["X"; "Y"; "Z"] soll with
    | Ok out => out.1.1
    | Raise _ => no_tables.1
    end.

Definition mixed_fc : gmap footprint (list string) :=
  Eval vm_compute in
    match analyze_footprints_by_kpi (H := filtering) mixed ["X"; "Y"; "Z"] soll with
    | Ok out => out.1.2
    | Raise _ => ∅
    end.

Definition mixed_d : DiffToSoll :=
  Eval vm_compute in
    match analyze_footprints_by_kpi (H := filtering) mixed ["X"; "Y"; "Z"] soll with
    | Ok out => out.2
    | Raise _ => no_tables.2
    end.

(** Operations of one contract, the first of which has an end date but no
    start date. *)
Definition started_late : DataFrame :=
  {| columns :=
       ["Contract"; "Operation RelNr"; "Start Date Actual"; "End Date Actual"];
     rows :=
       [ [Str "X"; Str "A"; NA; Num 10];
         [Str "X"; Str "B"; Num 5; Num 20] ] |}.

End Reference.

(** ** The scatter plot of the footprint KPIs *)

Module Plotting.
Import Classifier.

(** The calls made on [matplotlib.pyplot], with the arguments the source
    passes, in the order it makes them. *)
Inductive plt_call :=
| plt_figure (figsize : Z * Z)
| plt_scatter (labels : list string) (values : list Q) (marker : string)
    (c : list string)
| plt_title (text : string)
| plt_xlabel (text : string)
| plt_ylabel (text : string)
| plt_xticks (rotation : Z)
| plt_axhline (y : Q) (color linestyle : string) (legend : option string)
| plt_legend
| plt_grid
| plt_tight_layout
| plt_show.

(** Lines 139-149. *)
Definition scatter_figsize (num_data_points : Z) : Z * Z :=
  let min_figsize := (16, 12)%Z in
  if (100 <? num_data_points)%Z then
    let size_increment := (16, 12)%Z in
    let num_100s := (num_data_points / 100)%Z in
    (min_figsize.1 + size_increment.1 * num_100s,
     min_figsize.2 + size_increment.2 * num_100s)%Z
  else min_figsize.

(** Lines 153-156. *)
Definition scatter_colors (values : list Q) (mean sd : Q) (ylabel : string)
  : list string :=
  if String.eqb ylabel "OEE"
  then map (fun val => determine_color val (mean + (sd / 2)) (mean - sd) sd true)
           values
  else map (fun val => determine_color val (mean + sd) (mean - (sd / 2)) sd false)
           values.

(** Lines 165-170: the two lines of the confidence interval, the lower one
    never drawn below zero. *)
Definition interval_lines (mean sd : Q) (ylabel : string) : list plt_call :=
  if String.eqb ylabel "OEE" then
    [ plt_axhline (mean + (sd / 2)) "blue" "--" (Some "Confidence interval");
      plt_axhline (if Qgtb (mean - sd) 0 then mean - sd else 0) "blue" "--" None ]
  else
    [ plt_axhline (mean + sd) "blue" "--" (Some "Confidence interval");
      plt_axhline (if Qgtb (mean - (sd / 2)) 0 then mean - (sd / 2) else 0)
        "blue" "--" None ].

(** [draw_footprint_kpi_scatter], lines 125-175. *)
Definition draw_footprint_kpi_scatter (labels : list string) (values : list Q)
    (mean sd : Q) (title xlabel ylabel : string) : list plt_call :=
  [ plt_figure (scatter_figsize (Z.of_nat (length labels)));
    plt_scatter labels values "o" (scatter_colors values mean sd ylabel);
    plt_title title;
    plt_xlabel xlabel;
    plt_ylabel ylabel;
    plt_xticks 90;
    plt_axhline mean "red" "--" (Some "Mean") ]
  ++ interval_lines mean sd ylabel
  ++ [ plt_legend; plt_grid; plt_tight_layout; plt_show ].

(** The test [fp_color != 'blue'] of line 65. *)
Definition coloured (c : string) : bool := negb (String.eqb c "blue").

(** The horizontal lines of a plot, top-down as drawn. *)
Definition axhlines (calls : list plt_call) : list Q :=
  flat_map (fun call => match call with
                        | plt_axhline y _ _ _ => [y]
                        | _ => []
                        end) calls.

End Plotting.

(** ** Edge markings *)

Module Markings.
Import Frame Analyzer.

(** Class [EdgeMarking], lines 24-36. *)
Record EdgeMarking := { src : string; dest : string; color : string }.

(** [extract_edge_markings], lines 415-434; [fps_colors[i]] raises when the
    colours run out. *)
Fixpoint extract_edge_markings (fps : list footprint) (fps_colors : list string)
  : result (list EdgeMarking) :=
  match fps with
  | [] => Ok []
  | fp :: fps' =>
      match fps_colors with
      | [] => Raise IndexError
      | marking_color :: fps_colors' =>
          edge_markings ← extract_edge_markings fps' fps_colors';
          Ok ({| src := fp.1; dest := fp.2; color := marking_color |}
              :: edge_markings)
      end
  end.

End Markings.

(** ** Frames for the drawing of graphs, and the KPI targets *)

Module Baseline.
Import Frame Analyzer.

(** [c in values], the test of [series.isin(values)]; a null is in no list
    of strings. *)
Definition cell_in (values : list string) (c : cell) : bool :=
  match c with
  | Str s => existsb (String.eqb s) values
  | _ => false
  end.

(** [data.loc[data[label].isin(values)]] *)
Definition loc_isin (data : DataFrame) (label : string) (values : list string)
  : result DataFrame :=
  loc_by (cell_in values) data label.

(** [filter_data_by_contract], lines 377-397. *)
Definition filter_data_by_contract (data_to_filter : DataFrame)
    (contracts : list string) : result DataFrame :=
  curr ← loc_isin data_to_filter "Contract" contracts;
  curr' ← loc_notna curr "End Date Actual";
  Ok (rename (pm4py_columns "End Date Actual" "Contract" "Operation RelNr") curr').

Section WithExternals.
Context `{Externals}.

(** [extract_kpi_information], lines 197-225: the aggregation of the whole
    frame has the single row of the means.  The conversion of the durations
    to seconds (lines 220-223) is read as returning; what it raises on a
    column without any duration is left out. *)
Definition extract_kpi_information (data : DataFrame) : result (list KpiRow) :=
  c_oee ← column data "OEE";
  c_lead ← column data "Lead Time";
  c_malf ← column data "Malfunction Duration";
  c_rej ← column data "Rejected Materials";
  Ok [ {| OEE := mean c_oee;
          Lead_Time := mean c_lead;
          Malfunction_Duration := mean c_malf;
          Rejected_Materials := mean c_rej |} ].

End WithExternals.

End Baseline.

(** ** Colouring the edges of the drawn graph ([graphviz_helper.py]) *)

Module Graphviz.
Import Markings.

(** The substitution of [gviz_to_dot], line 39, over the characters of the
    text: [re.sub] with the pattern of a minus and a digit and the empty
    replacement.  Scanning from the left, a minus followed by a digit is
    dropped, digit included.  Which characters are digits is left to the
    pattern language. *)
Section Substitution.
Context {char : Type} (is_minus is_digit : char -> bool).

Fixpoint strip_minus_digit (text : list char) : list char :=
  match text with
  | [] => []
  | c :: rest =>
      match rest with
      | d :: rest' =>
          if is_minus c && is_digit d then strip_minus_digit rest'
          else c :: strip_minus_digit rest
      | [] => [c]
      end
  end.

(** [gviz_to_dot], lines 27-41, for a parser of the Dot language. *)
Definition gviz_to_dot {Dot : Type} (graph_from_dot_data : list char -> Dot)
    (gviz_source : list char) : Dot :=
  graph_from_dot_data (strip_minus_digit gviz_source).

End Substitution.

(** A Dot graph as the helper reads it: the nodes with name and label
    attribute, the edges with endpoints and colour attribute. *)
Record Node := { node_name : string; node_label : option string }.
Record Edge := {
  edge_source : string;
  edge_destination : string;
  edge_color : option string
}.
Record Dot := { node_list : list Node; edge_list : list Edge }.

(** A call on [None], as in [None.get_label()], raises. *)
Inductive outcome (A : Type) := Done (a : A) | AttributeError.
Arguments Done {A} a.
Arguments AttributeError {A}.

(** [get_node_by_name], lines 89-103. *)
Fixpoint find_node (nodes : list Node) (node_name' : string) : option Node :=
  match nodes with
  | [] => None
  | node_i :: nodes' =>
      if String.eqb (node_name node_i) node_name' then Some node_i
      else find_node nodes' node_name'
  end.

Definition get_node_by_name (dot : Dot) (node_name' : string) : option Node :=
  find_node (node_list dot) node_name'.

(** The double quote, character 34. *)
Definition double_quote : Ascii.ascii := Ascii.ascii_of_nat 34.

(** [text.replace] of every double quote by nothing, lines 83-84. *)
Fixpoint remove_quotes (text : string) : string :=
  match text with
  | EmptyString => EmptyString
  | String c text' =>
      if Ascii.eqb c double_quote then remove_quotes text'
      else String c (remove_quotes text')
  end.

(** [sub in text] *)
Fixpoint contains (sub text : string) : bool :=
  String.prefix sub text
  || match text with
     | EmptyString => false
     | String _ text' => contains sub text'
     end.

(** The label of the node of that name, its quotes removed. *)
Definition label_of (dot : Dot) (name : string) : outcome string :=
  match get_node_by_name dot name with
  | None => AttributeError
  | Some node =>
      match node_label node with
      | None => AttributeError
      | Some text => Done (remove_quotes text)
      end
  end.

(** The body of the loop of lines 78-86, for one edge. *)
Definition recolor (dot : Dot) (src_label dst_label color_name : string)
    (edge : Edge) : outcome Edge :=
  match label_of dot (edge_source edge) with
  | AttributeError => AttributeError
  | Done edge_src_label =>
      match label_of dot (edge_destination edge) with
      | AttributeError => AttributeError
      | Done edge_dst_label =>
          if contains src_label edge_src_label
             && contains dst_label edge_dst_label
          then Done {| edge_source := edge_source edge;
                       edge_destination := edge_destination edge;
                       edge_color := Some color_name |}
          else Done edge
      end
  end.

Fixpoint recolor_all (dot : Dot) (src_label dst_label color_name : string)
    (edges : list Edge) : outcome (list Edge) :=
  match edges with
  | [] => Done []
  | edge :: edges' =>
      match recolor dot src_label dst_label color_name edge with
      | AttributeError => AttributeError
      | Done edge' =>
          match recolor_all dot src_label dst_label color_name edges' with
          | AttributeError => AttributeError
          | Done edges'' => Done (edge' :: edges'')
          end
      end
  end.

(** [dot_change_edge_color], lines 65-87. *)
Definition dot_change_edge_color (dot : Dot)
    (src_label dst_label color_name : string) : outcome Dot :=
  match recolor_all dot src_label dst_label color_name (edge_list dot) with
  | AttributeError => AttributeError
  | Done edges => Done {| node_list := node_list dot; edge_list := edges |}
  end.

(** The loop of [view_graphviz_dfg], lines 22-23. *)
Fixpoint apply_edge_markings (dot : Dot) (edge_markings : list EdgeMarking)
  : outcome Dot :=
  match edge_markings with
  | [] => Done dot
  | edge_marking :: edge_markings' =>
      match dot_change_edge_color dot (src edge_marking) (dest edge_marking)
              (color edge_marking) with
      | AttributeError => AttributeError
      | Done dot' => apply_edge_markings dot' edge_markings'
      end
  end.

(** An edge is reached by a marking when the labels of its endpoints,
    quotes removed, contain the labels of the marking. *)
Definition reached (dot : Dot) (src_label dst_label : string) (edge : Edge)
  : bool :=
  match label_of dot (edge_source edge), label_of dot (edge_destination edge) with
  | Done edge_src_label, Done edge_dst_label =>
      contains src_label edge_src_label && contains dst_label edge_dst_label
  | _, _ => false
  end.

(** An edge after one recolouring that returns. *)
Definition recolored (dot : Dot) (src_label dst_label color_name : string)
    (edge : Edge) : Edge :=
  if reached dot src_label dst_label edge
  then {| edge_source := edge_source edge;
          edge_destination := edge_destination edge;
          edge_color := Some color_name |}
  else edge.

(** The last marking of a list that reaches an edge. *)
Definition last_reaching (dot : Dot) (edge_markings : list EdgeMarking)
    (edge : Edge) : option EdgeMarking :=
  List.find (fun m => reached dot (src m) (dest m) edge) (rev edge_markings).

(** An edge in the colour of the last marking that reaches it, or in its
    own when none does. *)
Definition marked (dot : Dot) (edge_markings : list EdgeMarking) (edge : Edge)
  : Edge :=
  {| edge_source := edge_source edge;
     edge_destination := edge_destination edge;
     edge_color :=
       match last_reaching dot edge_markings edge with
       | Some m => Some (color m)
       | None => edge_color edge
       end |}.

(** A minus directly followed by a digit occurs in the text. *)
Definition minus_digit_in {char : Type} (is_minus is_digit : char -> bool)
    (text : list char) : Prop :=
  exists before m d after,
    text = before ++ m :: d :: after /\
    is_minus m = true /\ is_digit d = true.

(** Every edge joins two nodes that are declared and labelled. *)
Definition edge_labelled (dot : Dot) (edge : Edge) : Prop :=
  exists a b, label_of dot (edge_source edge) = Done a /\
              label_of dot (edge_destination edge) = Done b.

Definition labelled (dot : Dot) : Prop :=
  Forall (edge_labelled dot) (edge_list dot).

End Graphviz.

(** ** Sample inputs of the drawing functions *)

Module Samples.
Import Frame Analyzer Reference Markings Graphviz.

(** Three footprints with an OEE above, within and far below the band
    around a mean of 0.75 with a deviation of 0.05. *)
Definition sample_footprints : list footprint :=
  [("A", "B"); ("B", "C"); ("C", "D")].
Definition sample_values : list Q := [8 # 10; 75 # 100; 5 # 10].

(** The finished operations of contract X, as handed to the drawing. *)
Definition production_X : DataFrame :=
  Eval vm_compute in
    match Baseline.filter_data_by_contract production ["X"] with
    | Ok curr => curr
    | Raise _ => production
    end.

(** The target table and the accumulators of the sample run. *)
Definition production_target : list KpiRow :=
  Eval vm_compute in
    match Baseline.extract_kpi_information production with
    | Ok table => table
    | Raise _ => []
    end.

Definition production_acc : accumulators :=
  Eval vm_compute in
    match accumulate production contracts_in_scope [("A", "B")] with
    | Ok acc => acc
    | Raise _ => no_accumulators
    end.

(** Characters of a Dot source: the minus and the digits 0 to 9. *)
Definition ascii_minus (c : Ascii.ascii) : bool :=
  Ascii.eqb c (Ascii.ascii_of_nat 45).
Definition ascii_digit (c : Ascii.ascii) : bool :=
  Nat.leb 48 (Ascii.nat_of_ascii c) && Nat.leb (Ascii.nat_of_ascii c) 57.

(** A graph of two edges whose node labels carry a frequency, as the
    visualizer writes them. *)
Definition quoted (text : string) : string :=
  String double_quote (text ++ String double_quote EmptyString).

Definition sample_dot : Dot :=
  {| node_list :=
       [ {| node_name := "n1"; node_label := Some (quoted "10 (2)") |};
         {| node_name := "n2"; node_label := Some (quoted "20 (2)") |};
         {| node_name := "n3"; node_label := Some (quoted "100 (1)") |};
         {| node_name := "n4"; node_label := Some (quoted "200 (1)") |} ];
     edge_list :=
       [ {| edge_source := "n1"; edge_destination := "n2"; edge_color := None |};
         {| edge_source := "n3"; edge_destination := "n4"; edge_color := None |} ]
  |}.

Definition sample_markings : list EdgeMarking :=
  [ {| src := "10"; dest := "20"; color := "#F15A59" |};
    {| src := "100"; dest := "200"; color := "#D0E7D2" |} ].

Definition sample_dot_once : Dot :=
  Eval vm_compute in
    match dot_change_edge_color sample_dot "10" "20" "#F15A59" with
    | Done dot => dot
    | AttributeError => sample_dot
    end.

Definition sample_dot_marked : Dot :=
  Eval vm_compute in
    match apply_edge_markings sample_dot sample_markings with
    | Done dot => dot
    | AttributeError => sample_dot
    end.

(** A Dot source with a negative node identifier. *)
Definition sample_source_before : list Ascii.ascii :=
  String.list_ascii_of_string "node ".
Definition sample_source_after : list Ascii.ascii :=
  String.list_ascii_of_string "31 [label=A]".

End Samples.

Module ClassifierFacts.
Import Classifier.

Lemma Qleb_spec x y : reflect (x <= y) (Qleb x y).
Proof.
  unfold Qleb. destruct (Qle_bool x y) eqn:E; constructor.
  - by apply Qle_bool_iff.
  - intros H. apply Qle_bool_iff in H. congruence.
Qed.

Lemma Qgeb_spec x y : reflect (y <= x) (Qgeb x y).
Proof. apply Qleb_spec. Qed.

Lemma Qgtb_spec x y : reflect (y < x) (Qgtb x y).
Proof.
  unfold Qgtb. change (Qle_bool x y) with (Qleb x y).
  destruct (Qleb_spec x y) as [H|H]; constructor; lra.
Qed.

Lemma Qltb_spec x y : reflect (x < y) (Qltb x y).
Proof. apply Qgtb_spec. Qed.

(** Linear arithmetic over [Q], with the halvings of the source written as
    multiplications by a constant. *)
Ltac qlra := unfold Qdiv in *; change (/ 2) with (1 # 2) in *; lra.

(** Case analysis on every comparison of a classifier goal, closing the
    arithmetically impossible branches. *)
Ltac cmp_cases :=
  repeat match goal with
    | |- context [Qgtb ?a ?b] => destruct (Qgtb_spec a b)
    | |- context [Qltb ?a ?b] => destruct (Qltb_spec a b)
    | |- context [Qleb ?a ?b] => destruct (Qleb_spec a b)
    | |- context [Qgeb ?a ?b] => destruct (Qgeb_spec a b)
    end;
  try reflexivity; try (exfalso; qlra).

(** C3: a value strictly between the lower and the upper bound is given
    the neutral sentinel ['blue'], in either direction. *)
Theorem neutral_band (value mean spread : Q) (reversed : bool) :
  lower mean spread reversed < value ->
  value < upper mean spread reversed ->
  classify value mean spread reversed = "blue".
Proof.
  unfold classify, determine_color. intros Hl Hu.
  destruct reversed; cmp_cases.
Qed.

Lemma fp_color_classify (val mean sd : Q) (kpi : string) :
  fp_color val mean sd kpi = classify val mean sd (String.eqb kpi "OEE").
Proof. unfold fp_color, classify, upper, lower. by destruct (String.eqb kpi "OEE"). Qed.

Ltac classifier_cases :=
  repeat match goal with H : _ /\ _ |- _ => destruct H end;
  unfold classify, upper, lower, determine_color in *; cmp_cases.

Lemma severity_range (c : string) (n : nat) :
  severity c = Some n -> (1 <= n <= 4)%nat.
Proof.
  unfold severity, red_pallete, green_pallete; simpl.
  repeat destruct (String.eqb c _); intros [= <-]; lia.
Qed.

(** C4: for a positive spread the severity grows by one level per spread
    beyond the bound, on the high and on the low side alike, and stops at 4. *)
Theorem severity_steps (value mean spread : Q) (reversed : bool) :
  0 < spread ->
  (upper mean spread reversed < value <= upper mean spread reversed + spread ->
     severity (classify value mean spread reversed) = Some 1%nat) /\
  (upper mean spread reversed + spread < value
     <= upper mean spread reversed + 2 * spread ->
     severity (classify value mean spread reversed) = Some 2%nat) /\
  (upper mean spread reversed + 2 * spread < value
     <= upper mean spread reversed + 3 * spread ->
     severity (classify value mean spread reversed) = Some 3%nat) /\
  (upper mean spread reversed + 3 * spread < value ->
     severity (classify value mean spread reversed) = Some 4%nat) /\
  (lower mean spread reversed - spread <= value < lower mean spread reversed ->
     severity (classify value mean spread reversed) = Some 1%nat) /\
  (lower mean spread reversed - 2 * spread <= value
     < lower mean spread reversed - spread ->
     severity (classify value mean spread reversed) = Some 2%nat) /\
  (lower mean spread reversed - 3 * spread <= value
     < lower mean spread reversed - 2 * spread ->
     severity (classify value mean spread reversed) = Some 3%nat) /\
  (value < lower mean spread reversed - 3 * spread ->
     severity (classify value mean spread reversed) = Some 4%nat) /\
  (forall n, severity (classify value mean spread reversed) = Some n ->
     (1 <= n <= 4)%nat).
Proof.
  intros Hsd.
  repeat apply conj; try apply severity_range;
    intros; destruct reversed; classifier_cases.
Qed.

(** C5, as stated, fails: with a zero spread a value exactly at the bound
    is given the neutral sentinel, not a severity. *)
Lemma zero_spread_at_bound_is_neutral :
  1 == upper 1 0 false /\ 1 == lower 1 0 false /\
  classify 1 1 0 false = "blue" /\ severity (classify 1 1 0 false) = None.
Proof. repeat split. Qed.

(** C5, amended: with a zero spread both bounds are the mean; the
    classifier (a total function, which never divides by the spread) then
    returns the neutral sentinel exactly at the mean and the highest
    severity, 4, for every other value. *)
Theorem zero_spread_classification (value mean spread : Q) (reversed : bool) :
  spread == 0 ->
  upper mean spread reversed == mean /\
  lower mean spread reversed == mean /\
  (value == mean -> classify value mean spread reversed = "blue") /\
  (~ value == mean ->
     severity (classify value mean spread reversed) = Some 4%nat).
Proof.
  intros Hsd. repeat apply conj.
  - destruct reversed; unfold upper; qlra.
  - destruct reversed; unfold lower; qlra.
  - intros Hv. destruct reversed; classifier_cases.
  - intros Hv.
    assert (value < mean \/ mean < value) as [Hlt | Hgt].
    { destruct (Qlt_le_dec value mean) as [|Hle]; [by left|].
      destruct (Qlt_le_dec mean value) as [|Hge]; [by right|].
      exfalso. apply Hv. lra. }
    + destruct reversed; classifier_cases.
    + destruct reversed; classifier_cases.
Qed.

(** C10: reversing the direction exchanges the palettes, index by index,
    and leaves the neutral sentinel where it was. *)
Theorem reverse_swaps_palettes (val upper_bound lower_bound sd : Q) :
  determine_color val upper_bound lower_bound sd true
  = swap_palette (determine_color val upper_bound lower_bound sd false) /\
  (determine_color val upper_bound lower_bound sd true = "blue" <->
   determine_color val upper_bound lower_bound sd false = "blue").
Proof.
  split.
  - unfold determine_color. cmp_cases.
  - unfold determine_color. cmp_cases; split; discriminate.
Qed.

End ClassifierFacts.

(** ** Facts about the classifier on doubles *)

Module DoublesFacts.
Import Floats Classifier Doubles.
Local Open Scope Z_scope.

Lemma digits2_pos_bounds (m : positive) :
  2 ^ (Z.pos (digits2_pos m) - 1) <= Z.pos m < 2 ^ Z.pos (digits2_pos m).
Proof.
  induction m as [m IH|m IH|]; simpl digits2_pos.
  - rewrite Pos2Z.inj_succ.
    replace (Z.succ (Z.pos (digits2_pos m)) - 1)
      with (Z.succ (Z.pos (digits2_pos m) - 1)) by lia.
    rewrite !Z.pow_succ_r by lia. lia.
  - rewrite Pos2Z.inj_succ.
    replace (Z.succ (Z.pos (digits2_pos m)) - 1)
      with (Z.succ (Z.pos (digits2_pos m) - 1)) by lia.
    rewrite !Z.pow_succ_r by lia. lia.
  - simpl. lia.
Qed.

(** The mantissa and exponent of a double: at most 53 bits, and exactly 53
    above the smallest exponent. *)
Lemma canonical_bounds (m : positive) (e : Z) :
  canonical_mantissa prec emax m e = true ->
  -1074 <= e /\ Z.pos m < 2 ^ 53 /\ (-1074 < e -> 2 ^ 52 <= Z.pos m).
Proof.
  unfold canonical_mantissa, fexp, SpecFloat.emin, prec, emax.
  intros Hc%Z.eqb_eq.
  pose proof (digits2_pos_bounds m) as [Hlo Hhi].
  set (d := Z.pos (digits2_pos m)) in *.
  assert (0 < d) by (unfold d; lia).
  split; [lia|]. split.
  - assert (d <= 53) by lia.
    eapply Z.lt_le_trans; [exact Hhi|]. apply Z.pow_le_mono_r; lia.
  - intros He. assert (d = 53) as Hd by lia. rewrite Hd in Hlo. exact Hlo.
Qed.

Lemma scaled_lt (m1 m2 : positive) (e1 e2 : Z) :
  canonical_mantissa prec emax m1 e1 = true ->
  canonical_mantissa prec emax m2 e2 = true ->
  e1 < e2 ->
  Z.pos m1 * 2 ^ (e1 + 1074) < Z.pos m2 * 2 ^ (e2 + 1074).
Proof.
  intros (He1 & Hm1 & _)%canonical_bounds (He2 & _ & Hm2)%canonical_bounds Hlt.
  assert (-1074 < e2) as He by lia. specialize (Hm2 He).
  replace (e2 + 1074) with ((e1 + 1074) + (e2 - e1)) by lia.
  rewrite (Z.pow_add_r 2 (e1 + 1074) (e2 - e1)) by lia.
  assert (0 < 2 ^ (e1 + 1074)) by (apply Z.pow_pos_nonneg; lia).
  assert (2 ^ 1 <= 2 ^ (e2 - e1)) by (apply Z.pow_le_mono_r; lia).
  change (2 ^ 1) with 2 in *. change (2 ^ 53) with (2 * 2 ^ 52) in Hm1.
  assert (0 < 2 ^ 52) by done.
  apply Z.lt_le_trans with (2 * 2 ^ 52 * 2 ^ (e1 + 1074)).
  - by apply Z.mul_lt_mono_pos_r.
  - replace (Z.pos m2 * (2 ^ (e1 + 1074) * 2 ^ (e2 - e1)))
      with (2 ^ (e2 - e1) * Z.pos m2 * 2 ^ (e1 + 1074)) by ring.
    apply Z.mul_le_mono_pos_r; [done|].
    apply Z.mul_le_mono_nonneg; lia.
Qed.

Lemma compare_scaled (m1 m2 : positive) (e1 e2 : Z) :
  canonical_mantissa prec emax m1 e1 = true ->
  canonical_mantissa prec emax m2 e2 = true ->
  match e1 ?= e2 with
  | Lt => Lt
  | Gt => Gt
  | Eq => Pos.compare_cont Eq m1 m2
  end
  = (Z.pos m1 * 2 ^ (e1 + 1074) ?= Z.pos m2 * 2 ^ (e2 + 1074)).
Proof.
  intros H1 H2. destruct (Z.compare_spec e1 e2) as [->|Hlt|Hgt].
  - pose proof (canonical_bounds _ _ H2) as (He & _ & _).
    rewrite <- Zmult_compare_compat_r; [done|].
    apply Z.lt_gt, Z.pow_pos_nonneg; lia.
  - symmetry. apply Z.compare_lt_iff. by apply scaled_lt.
  - symmetry. apply Z.compare_gt_iff. by apply scaled_lt.
Qed.

(** The comparison of two finite doubles is the comparison of the numbers
    they stand for. *)
Lemma SFcompare_units (x y : spec_float) (a b : Z) :
  valid_binary x = true -> valid_binary y = true ->
  units_of x = Some a -> units_of y = Some b ->
  SFcompare x y = Some (a ?= b).
Proof.
  destruct x as [sx|sx| |sx mx ex], y as [sy|sy| |sy my ey]; simpl; try done.
  - by intros _ _ [= <-] [= <-].
  - intros _ (Hc & _)%andb_true_iff [= <-] [= <-].
    pose proof (canonical_bounds _ _ Hc) as (He & _ & _).
    assert (0 < 2 ^ (ey + 1074)) by (apply Z.pow_pos_nonneg; lia).
    f_equal. symmetry. destruct sy.
    + apply Z.compare_gt_iff. lia.
    + apply Z.compare_lt_iff. lia.
  - intros (Hc & _)%andb_true_iff _ [= <-] [= <-].
    pose proof (canonical_bounds _ _ Hc) as (He & _ & _).
    assert (0 < 2 ^ (ex + 1074)) by (apply Z.pow_pos_nonneg; lia).
    f_equal. symmetry. destruct sx.
    + apply Z.compare_lt_iff. lia.
    + apply Z.compare_gt_iff. lia.
  - intros (Hx & _)%andb_true_iff (Hy & _)%andb_true_iff [= <-] [= <-].
    pose proof (canonical_bounds _ _ Hx) as (Hex & _ & _).
    pose proof (canonical_bounds _ _ Hy) as (Hey & _ & _).
    assert (0 < 2 ^ (ex + 1074)) by (apply Z.pow_pos_nonneg; lia).
    assert (0 < 2 ^ (ey + 1074)) by (apply Z.pow_pos_nonneg; lia).
    f_equal. destruct sx, sy.
    + transitivity (CompOpp (match ex ?= ey with
                             | Lt => Lt
                             | Gt => Gt
                             | Eq => Pos.compare_cont Eq mx my
                             end)); [by destruct (ex ?= ey)|].
      rewrite (compare_scaled _ _ _ _ Hx Hy).
      change (Z.neg mx) with (- Z.pos mx). change (Z.neg my) with (- Z.pos my).
      by rewrite !Z.mul_opp_l, Z.compare_opp, <- Z.compare_antisym.
    + symmetry. apply Z.compare_lt_iff. lia.
    + symmetry. apply Z.compare_gt_iff. lia.
    + apply compare_scaled; done.
Qed.

Lemma ltb_units (x y : float) (a b : Z) :
  units x = Some a -> units y = Some b -> (x <? y)%float = (a <? b).
Proof.
  intros Hx Hy. rewrite ltb_spec. unfold SFltb, Z.ltb.
  rewrite (SFcompare_units _ _ a b) by (try apply Prim2SF_valid; done).
  by destruct (a ?= b).
Qed.

Lemma leb_units (x y : float) (a b : Z) :
  units x = Some a -> units y = Some b -> (x <=? y)%float = (a <=? b).
Proof.
  intros Hx Hy. rewrite leb_spec. unfold SFleb, Z.leb.
  rewrite (SFcompare_units _ _ a b) by (try apply Prim2SF_valid; done).
  by destruct (a ?= b).
Qed.

Lemma stands_for_units (x : float) (z : Z) :
  stands_for x z = true -> units x = Some z.
Proof.
  unfold stands_for. destruct (units x) as [a|]; [|done].
  by intros ->%Z.eqb_eq.
Qed.

Lemma positive_units (x : float) (a : Z) :
  units x = Some a -> (0 <? x)%float = true -> 0 < a.
Proof.
  intros Hx Hpos. rewrite (ltb_units 0%float x 0 a) in Hpos; [|done|done].
  by apply Z.ltb_lt.
Qed.

(** Comparisons of doubles to comparisons of integers, ... *)
Ltac units_cmp :=
  repeat match goal with
    | Hx : units ?x = Some _, Hy : units ?y = Some _
      |- context [PrimFloat.ltb ?x ?y] => rewrite (ltb_units x y _ _ Hx Hy)
    | Hx : units ?x = Some _, Hy : units ?y = Some _
      |- context [PrimFloat.leb ?x ?y] => rewrite (leb_units x y _ _ Hx Hy)
    end.

(** ... each of which the hypotheses settle. *)
Ltac settle_cmp :=
  repeat match goal with
    | |- context [(?a <? ?b)%Z] =>
        first [ replace (a <? b)%Z with true by (symmetry; apply Z.ltb_lt; lia)
              | replace (a <? b)%Z with false by (symmetry; apply Z.ltb_ge; lia) ]
    | |- context [(?a <=? ?b)%Z] =>
        first [ replace (a <=? b)%Z with true by (symmetry; apply Z.leb_le; lia)
              | replace (a <=? b)%Z with false by (symmetry; apply Z.leb_gt; lia) ]
    end.

(** C6, as the code has it: when none of the sums, differences and
    products that the two calls and their arguments compute is rounded, an
    excursion above the upper bound of a KPI where high is bad and the same
    excursion below the lower bound of a KPI where high is good reach the
    same severity level. *)
Theorem classifier_symmetry_unrounded (mean spread eps : float) :
  unrounded mean spread eps = true ->
  (0 <? spread)%float = true -> (0 <? eps)%float = true ->
  exists n : nat,
    (1 <= n <= 4)%nat /\
    severity (Doubles.classify (mean + spread + eps) mean spread false) = Some n /\
    severity (Doubles.classify (mean - spread - eps) mean spread true) = Some n.
Proof.
  unfold unrounded. intros Hexact Hspread Heps.
  destruct (units mean) as [m|] eqn:Hm; [|done].
  destruct (units spread) as [s|] eqn:Hs; [|done].
  destruct (units eps) as [e|] eqn:He; [|done].
  destruct (units (spread / 2)) as [h|] eqn:Hh; [|done].
  repeat (apply andb_true_iff in Hexact as [Hexact ?%stands_for_units]).
  apply Z.eqb_eq in Hexact.
  apply (positive_units _ _ Hs) in Hspread.
  apply (positive_units _ _ He) in Heps.
  unfold Doubles.classify, Doubles.determine_color, Doubles.upper,
    Doubles.lower, gtb, geb.
  units_cmp.
  destruct (Z_lt_le_dec s e) as [Hc1|Hc1];
    [destruct (Z_lt_le_dec (2 * s) e) as [Hc2|Hc2];
       [destruct (Z_lt_le_dec (3 * s) e) as [Hc3|Hc3]|]|].
  - exists 4%nat. settle_cmp. repeat split; lia.
  - exists 3%nat. settle_cmp. repeat split; lia.
  - exists 2%nat. settle_cmp. repeat split; lia.
  - exists 1%nat. settle_cmp. repeat split; lia.
Qed.

(** Decimal numerals denote the nearest double, as they do in Python. *)
#[local] Set Warnings "-inexact-float".

(** The claim C6 fails on doubles: with a mean of 0.9, a spread of 0.15 and
    an excursion of 0.45 the high side is at its third threshold
    (1.5 <= 1.5), the low side just beyond it (0.3 against
    0.30000000000000004). *)
Lemma classifier_symmetry_rounding :
  (0 <? 0.15)%float = true /\ (0 <? 0.45)%float = true /\
  severity (Doubles.classify (0.9 + 0.15 + 0.45) 0.9 0.15 false) = Some 3%nat /\
  severity (Doubles.classify (0.9 - 0.15 - 0.45) 0.9 0.15 true) = Some 4%nat.
Proof. repeat split. Qed.

#[local] Set Warnings "+inexact-float".

(** With a mean of 1, a spread of 0.25 and an excursion of 0.5 nothing is
    rounded. *)
Lemma classifier_symmetry_unrounded_example :
  exists n : nat,
    (1 <= n <= 4)%nat /\
    severity (Doubles.classify (1 + 0.25 + 0.5) 1 0.25 false) = Some n /\
    severity (Doubles.classify (1 - 0.25 - 0.5) 1 0.25 true) = Some n.
Proof. apply classifier_symmetry_unrounded; reflexivity. Defined.

End DoublesFacts.

(** ** Facts about the attribution *)

Module AnalyzerFacts.
Import Frame Analyzer.

Lemma bind_Ok {A B : Type} (r : result A) (k : A -> result B) (b : B) :
  r ≫= k = Ok b -> exists a, r = Ok a /\ k a = Ok b.
Proof. destruct r as [a|e]; simpl; [eauto | discriminate]. Qed.

Ltac inv_bind H :=
  let a := fresh "a" in
  let Ha := fresh "Ha" in
  apply bind_Ok in H; destruct H as (a & Ha & H).

Section Loops.
Context {A S : Type} (body : S -> A -> result S).

Lemma for_each_app (xs ys : list A) (st : S) :
  for_each body (xs ++ ys) st
  = for_each body xs st ≫= for_each body ys.
Proof.
  revert st. induction xs as [|x xs IH]; intros st; simpl; [done|].
  destruct (body st x) as [st'|e]; simpl; [apply IH | done].
Qed.

(** A property kept by every iteration that returns is kept by the loop. *)
Lemma for_each_invariant (I : list A -> S -> Prop) (xs : list A) :
  (forall done x st st', I done st -> body st x = Ok st' -> I (done ++ [x]) st') ->
  forall done st st',
    I done st -> for_each body xs st = Ok st' -> I (done ++ xs) st'.
Proof.
  intros Hstep. induction xs as [|x xs IH]; intros done st st' HI Hrun; simpl in Hrun.
  - injection Hrun as <-. by rewrite app_nil_r.
  - inv_bind Hrun. replace (done ++ x :: xs) with ((done ++ [x]) ++ xs)
      by (by rewrite <- app_assoc).
    eapply IH; [|exact Hrun]. eapply Hstep; eauto.
Qed.

(** An iteration that changes nothing can be left out. *)
Lemma for_each_skip (xs ys : list A) (x : A) (st : S) :
  (forall st', body st' x = Ok st') ->
  for_each body (xs ++ x :: ys) st = for_each body (xs ++ ys) st.
Proof.
  intros Hx. rewrite !for_each_app.
  destruct (for_each body xs st) as [st'|e]; simpl; [|done].
  by rewrite Hx.
Qed.

End Loops.

Lemma attribute_miss kpi_data contract dfg acc fp :
  fp ∉ dfg -> attribute kpi_data contract dfg acc fp = Ok acc.
Proof. intros Hn. unfold attribute. by rewrite bool_decide_eq_false_2. Qed.

Lemma attribute_hit kpi_data contract dfg acc fp acc' :
  fp ∈ dfg -> attribute kpi_data contract dfg acc fp = Ok acc' ->
  exists row,
    head kpi_data = Some row /\
    footprint_kpis acc'
      = <[fp := add_row (footprint_kpis acc !! fp) row]> (footprint_kpis acc) /\
    footprint_contracts acc'
      = <[fp := default [] (footprint_contracts acc !! fp) ++ [contract]]>
          (footprint_contracts acc).
Proof.
  intros Hin. unfold attribute. rewrite bool_decide_eq_true_2 by done.
  intros Hrun. inv_bind Hrun. injection Hrun as <-. simpl.
  destruct kpi_data as [|row rest].
  { destruct (footprint_kpis acc !! fp); discriminate. }
  exists row. split; [done|]. split.
  - destruct (footprint_kpis acc !! fp); simpl in Ha; by injection Ha as <-.
  - by destruct (footprint_contracts acc !! fp).
Qed.

(** One contract leaves alone every footprint that is not both in the
    baseline and among its own. *)
Lemma attribute_loop_untouched kpi_data contract dfg base acc acc' fp :
  for_each (attribute kpi_data contract dfg) base acc = Ok acc' ->
  fp ∉ base \/ fp ∉ dfg ->
  footprint_kpis acc' !! fp = footprint_kpis acc !! fp /\
  footprint_contracts acc' !! fp = footprint_contracts acc !! fp.
Proof.
  revert acc. induction base as [|b base IH]; intros acc Hrun Hfp; simpl in Hrun.
  - by injection Hrun as <-.
  - inv_bind Hrun.
    assert (fp ∉ base \/ fp ∉ dfg) as Hfp'.
    { destruct Hfp as [Hfp|Hfp]; [left|by right].
      by apply not_elem_of_cons in Hfp as [_ ?]. }
    destruct (IH _ Hrun Hfp') as [E1 E2]. rewrite E1, E2.
    destruct (decide (b ∈ dfg)) as [Hb|Hb].
    + destruct (attribute_hit _ _ _ _ _ _ Hb Ha) as (row & _ & -> & ->).
      assert (b ≠ fp).
      { intros ->. destruct Hfp as [Hfp|Hfp]; [|done].
        apply Hfp, elem_of_cons. by left. }
      by rewrite !lookup_insert_ne.
    + rewrite attribute_miss in Ha by done. by injection Ha as <-.
Qed.

(** ... and adds its row once to every baseline footprint among its own. *)
Lemma attribute_loop_touched kpi_data contract dfg base acc acc' fp :
  NoDup base ->
  for_each (attribute kpi_data contract dfg) base acc = Ok acc' ->
  fp ∈ base -> fp ∈ dfg ->
  exists row,
    head kpi_data = Some row /\
    footprint_kpis acc' !! fp = Some (add_row (footprint_kpis acc !! fp) row) /\
    footprint_contracts acc' !! fp
      = Some (default [] (footprint_contracts acc !! fp) ++ [contract]).
Proof.
  intros Hnd. revert acc.
  induction Hnd as [|b base Hb Hnd IH]; intros acc Hrun Hfp Hdfg; simpl in Hrun.
  - set_solver.
  - inv_bind Hrun. apply elem_of_cons in Hfp as [->|Hfp].
    + destruct (attribute_hit _ _ _ _ _ _ Hdfg Ha) as (row & Hrow & Hk & Hc).
      destruct (attribute_loop_untouched _ _ _ _ _ _ b Hrun) as [-> ->];
        [by left|].
      exists row. rewrite Hk, Hc, !lookup_insert_eq. done.
    + destruct (IH _ Hrun Hfp Hdfg) as (row & Hrow & Hk & Hc).
      exists row. rewrite Hk, Hc. split; [done|].
      assert (b ≠ fp) by (intros ->; done).
      destruct (decide (b ∈ dfg)) as [Hbd|Hbd].
      * destruct (attribute_hit _ _ _ _ _ _ Hbd Ha) as (row' & _ & -> & ->).
        by rewrite !lookup_insert_ne.
      * rewrite attribute_miss in Ha by done. by injection Ha as <-.
Qed.

Lemma Qsum_snoc (xs : list Q) (x : Q) : Qsum (xs ++ [x]) == Qsum xs + x.
Proof. induction xs as [|y xs IH]; simpl; [ring | rewrite IH; ring]. Qed.

Lemma Qsum_map_snoc {A : Type} (f : A -> Q) (xs : list A) (x : A) :
  Qsum (map f (xs ++ [x])) == Qsum (map f xs) + f x.
Proof. rewrite map_app. apply Qsum_snoc. Qed.

Lemma sums_first (row : KpiRow) : sums (add_row None row) [row].
Proof. unfold sums; simpl. repeat split; ring. Qed.

Lemma sums_next (k : FootprintKpi) (rs : list KpiRow) (row : KpiRow) :
  sums k rs -> sums (add_row (Some k) row) (rs ++ [row]).
Proof.
  intros (H1 & H2 & H3 & H4 & H5). unfold sums, add_row.
  cbn [oee lead_time malfunction_duration rejection_count count].
  rewrite !Qsum_map_snoc, length_app, H1, H2, H3, H4, H5.
  repeat split; try reflexivity. simpl. lia.
Qed.

Lemma means_of_sums (k : FootprintKpi) (rs : list KpiRow) :
  sums k rs -> kpi_eq (means_of k) (mean_of_rows rs).
Proof.
  intros (H1 & H2 & H3 & H4 & H5). unfold kpi_eq, means_of, mean_of_rows; simpl.
  rewrite H1, H2, H3, H4, H5. repeat split; reflexivity.
Qed.

Lemma mean_of_two (a b : KpiRow) : kpi_eq (mean_of_rows [a; b]) (half_sum a b).
Proof.
  unfold kpi_eq, mean_of_rows, half_sum; simpl.
  change (inject_Z 2) with 2. repeat split; field.
Qed.

Lemma kpi_eq_trans (a b c : KpiRow) : kpi_eq a b -> kpi_eq b c -> kpi_eq a c.
Proof.
  intros (H1 & H2 & H3 & H4) (G1 & G2 & G3 & G4).
  repeat split; etransitivity; eassumption.
Qed.

Lemma row_at_tables (rs : list report) (i : nat) :
  row_at (tables_of rs).1 (tables_of rs).2 i = rs !! i.
Proof.
  unfold row_at; simpl. rewrite !list_lookup_fmap.
  destruct (rs !! i) as [[[fp [m1 m2 m3 m4]] [d1 d2 d3 d4]]|]; reflexivity.
Qed.

Lemma finalize_step_tables kpis kpi_data_mnummer (rs : list report) fp out :
  finalize_step kpis kpi_data_mnummer (tables_of rs) fp = Ok out ->
  (kpis !! fp = None /\ out = tables_of rs) \/
  (exists k soll,
      kpis !! fp = Some k /\ head kpi_data_mnummer = Some soll /\
      out = tables_of (rs ++ [(fp, means_of k, kpi_minus (means_of k) soll)])).
Proof.
  unfold finalize_step. destruct (kpis !! fp) as [k|].
  - destruct kpi_data_mnummer as [|soll rest]; [discriminate|]. simpl.
    intros [= <-]. right. exists k, soll. repeat split.
    unfold tables_of. by rewrite !map_app.
  - intros [= <-]. by left.
Qed.

Lemma finalize_loop_tables kpis kpi_data_mnummer base (rs0 : list report) out :
  for_each (finalize_step kpis kpi_data_mnummer) base (tables_of rs0) = Ok out ->
  exists rs,
    out = tables_of (rs0 ++ rs) /\
    Forall (reported base kpis kpi_data_mnummer) rs.
Proof.
  revert rs0. induction base as [|b base IH]; intros rs0 Hrun; simpl in Hrun.
  - injection Hrun as <-. exists []. by rewrite app_nil_r.
  - inv_bind Hrun.
    assert (forall rs, Forall (reported base kpis kpi_data_mnummer) rs ->
                       Forall (reported (b :: base) kpis kpi_data_mnummer) rs)
      as Hmono.
    { intros rs Hrs. eapply Forall_impl; [exact Hrs|].
      intros r (k & soll & ? & ?).
      exists k, soll. split; [by apply elem_of_cons; right | done]. }
    destruct (finalize_step_tables _ _ _ _ _ Ha) as [[Hk ->]|(k & soll & Hk & Hs & ->)].
    + destruct (IH _ Hrun) as (rs & -> & Hrs). exists rs. split; [done|].
      by apply Hmono.
    + destruct (IH _ Hrun) as (rs & -> & Hrs).
      exists ((b, means_of k, kpi_minus (means_of k) soll) :: rs).
      split; [by rewrite <- app_assoc|].
      constructor; [|by apply Hmono].
      exists k, soll. simpl. split; [by apply elem_of_cons; left | done].
Qed.

Lemma finalize_tables base kpis kpi_data_mnummer out :
  finalize base kpis kpi_data_mnummer = Ok out ->
  exists rs,
    out = tables_of rs /\ Forall (reported base kpis kpi_data_mnummer) rs.
Proof. intros Hrun. by apply (finalize_loop_tables _ _ _ []) in Hrun. Qed.

Section Attribution.
Context `{Externals} (data : DataFrame) (base : list footprint).

Lemma contract_step_Ok acc contract acc' :
  contract_step data base acc contract = Ok acc' ->
  exists kpi_data,
    contract_view data contract
      = Ok (kpi_data, contract_footprints data contract) /\
    contract_means data contract = head kpi_data /\
    for_each (attribute kpi_data contract (contract_footprints data contract))
      base acc = Ok acc'.
Proof.
  unfold contract_step, contract_footprints, contract_means. intros Hrun.
  inv_bind Hrun. rewrite Ha. destruct a as [kpi_data dfg]. by exists kpi_data.
Qed.

Lemma contributors_snoc fp done contract :
  contributors data fp (done ++ [contract])
  = contributors data fp done
      ++ (if bool_decide (fp ∈ contract_footprints data contract)
          then [contract] else []).
Proof.
  unfold contributors. rewrite List.filter_app. simpl.
  by destruct (bool_decide (fp ∈ contract_footprints data contract)).
Qed.

Lemma absent_ok_step done contract acc acc' :
  absent_ok data base done acc ->
  contract_step data base acc contract = Ok acc' ->
  absent_ok data base (done ++ [contract]) acc'.
Proof.
  intros Hinv Hrun fp Hfp.
  destruct (contract_step_Ok _ _ _ Hrun) as (kpi_data & _ & _ & Hloop).
  rewrite contributors_snoc in Hfp.
  destruct (attribute_loop_untouched _ _ _ _ _ _ fp Hloop) as [E1 E2].
  - destruct Hfp as [Hfp|Hfp]; [by left|]. right.
    case_bool_decide; [|done]. by destruct (contributors data fp done).
  - rewrite E1, E2. apply Hinv. destruct Hfp as [Hfp|Hfp]; [by left|].
    right. by apply app_eq_nil in Hfp as [? _].
Qed.

Lemma present_ok_step done contract acc acc' :
  NoDup base ->
  absent_ok data base done acc -> present_ok data base done acc ->
  contract_step data base acc contract = Ok acc' ->
  present_ok data base (done ++ [contract]) acc'.
Proof.
  intros Hnd Habs Hinv Hrun fp Hbase Hne.
  destruct (contract_step_Ok _ _ _ Hrun) as (kpi_data & _ & Hmeans & Hloop).
  rewrite contributors_snoc in Hne |- *.
  case_bool_decide as Hdfg.
  - destruct (attribute_loop_touched _ _ _ _ _ _ fp Hnd Hloop Hbase Hdfg)
      as (row & Hrow & -> & ->).
    rewrite <- Hmeans in Hrow.
    destruct (contributors data fp done) as [|c cs] eqn:Hcs.
    + destruct (Habs fp) as [-> ->]; [by right|]. simpl. split; [done|].
      exists (add_row None row), [row].
      split; [done|]. split; [by repeat constructor | apply sums_first].
    + destruct (Hinv fp Hbase) as (-> & k & rs & -> & Hrs & Hsums).
      { by rewrite Hcs. }
      rewrite Hcs in *. simpl. split; [done|].
      exists (add_row (Some k) row), (rs ++ [row]).
      split; [done|]. split; [|by apply sums_next].
      change (c :: cs ++ [contract]) with ((c :: cs) ++ [contract]).
      apply Forall2_app; [done | by repeat constructor].
  - rewrite app_nil_r in Hne |- *.
    destruct (attribute_loop_untouched _ _ _ _ _ _ fp Hloop) as [E1 E2];
      [by right|].
    rewrite E1, E2. by apply Hinv.
Qed.

Lemma accumulate_absent contracts acc :
  accumulate data contracts base = Ok acc -> absent_ok data base contracts acc.
Proof.
  intros Hrun.
  apply (for_each_invariant (contract_step data base) (absent_ok data base)
           contracts)
    with (done := []) (st := no_accumulators) in Hrun; [done| |].
  - intros done c st st' ? ?. by eapply absent_ok_step.
  - intros fp _. split; apply lookup_empty.
Qed.

Lemma accumulate_present contracts acc :
  NoDup base ->
  accumulate data contracts base = Ok acc -> present_ok data base contracts acc.
Proof.
  intros Hnd Hrun.
  apply (for_each_invariant (contract_step data base)
           (fun done st => absent_ok data base done st /\ present_ok data base done st)
           contracts)
    with (done := []) (st := no_accumulators) in Hrun; [by destruct Hrun| |].
  - intros done c st st' [? ?] ?. split.
    + by eapply absent_ok_step.
    + by eapply present_ok_step.
  - split.
    + intros fp _. split; apply lookup_empty.
    + intros fp _ Hne. done.
Qed.

End Attribution.

Section Analysis.
Context `{Externals}.

Lemma analyze_Ok (data : DataFrame) (contracts : list string)
    (kpi_data_mnummer : list KpiRow) (kv : KpiValues)
    (fc : gmap footprint (list string)) (d : DiffToSoll) :
  analyze_footprints_by_kpi data contracts kpi_data_mnummer = Ok (kv, fc, d) ->
  exists base acc,
    extract_footprints data "End Date Actual" "Contract" "Operation RelNr"
      = Ok base /\
    accumulate data contracts base = Ok acc /\
    finalize base (footprint_kpis acc) kpi_data_mnummer = Ok (kv, d) /\
    fc = footprint_contracts acc.
Proof.
  unfold analyze_footprints_by_kpi. intros Hrun.
  inv_bind Hrun. inv_bind Hrun. inv_bind Hrun.
  injection Hrun as <- <- <-. exists a, a0. by destruct a1.
Qed.

Lemma delta_entry_tables (rs : list report) (i : nat) :
  delta_entry (tables_of rs).2 i -> exists r, rs !! i = Some r.
Proof.
  unfold delta_entry; simpl. rewrite !length_map. intros Hi.
  apply lookup_lt_is_Some_2. tauto.
Qed.

(** Every entry of the deltas table sits at the index of a footprint of
    the KPI table that is in the baseline, owns an accumulator, and whose
    label it carries. *)
Lemma deltas_follow_kpi_values data contracts kpi_data_mnummer kv d base acc :
  extract_footprints data "End Date Actual" "Contract" "Operation RelNr"
    = Ok base ->
  accumulate data contracts base = Ok acc ->
  finalize base (footprint_kpis acc) kpi_data_mnummer = Ok (kv, d) ->
  forall i, delta_entry d i ->
    exists fp, fp ∈ base /\ is_Some (footprint_kpis acc !! fp) /\
               kv_fp kv !! i = Some fp /\ d_Footprint d !! i = Some (label fp).
Proof.
  intros _ _ Hfin i Hi.
  destruct (finalize_tables _ _ _ _ Hfin) as (rs & Hout & Hrs).
  injection Hout as -> ->.
  destruct (delta_entry_tables rs i Hi) as (r & Hr).
  destruct (proj1 (Forall_lookup _ _) Hrs i r Hr) as (k & soll & Hb & Hk & _).
  exists r.1.1. simpl. rewrite !list_lookup_fmap, Hr, Hk. by repeat split.
Qed.

(** C1: every reported footprint carries, for each KPI, the sum of the means
    of its contributing contracts divided by their number, and as delta
    that mean minus the target; with two contributors the mean is half the
    sum of their values. *)
Theorem footprint_means_and_deltas (data : DataFrame) (contracts : list string)
    (kpi_data_mnummer : list KpiRow) (kv : KpiValues)
    (fc : gmap footprint (list string)) (d : DiffToSoll) :
  analyze_footprints_by_kpi data contracts kpi_data_mnummer = Ok (kv, fc, d) ->
  forall (i : nat) (fp : footprint),
    kv_fp kv !! i = Some fp ->
    exists (rs : list KpiRow) (soll m dl : KpiRow),
      fc !! fp = Some (contributors data fp contracts) /\
      Forall2 (fun c r => contract_means data c = Some r)
        (contributors data fp contracts) rs /\
      rs <> [] /\
      iloc0 kpi_data_mnummer = Ok soll /\
      row_at kv d i = Some (fp, m, dl) /\
      kpi_eq m (mean_of_rows rs) /\
      dl = kpi_minus m soll /\
      (forall a b, rs = [a; b] -> kpi_eq m (half_sum a b)).
Proof.
  intros Hrun i fp Hi.
  destruct (analyze_Ok _ _ _ _ _ _ Hrun) as (base & acc & Hbase & Hacc & Hfin & ->).
  assert (NoDup base) as Hnd.
  { unfold extract_footprints in Hbase. inv_bind Hbase.
    by eapply discover_footprints_keys. }
  destruct (finalize_tables _ _ _ _ Hfin) as (rs & Hout & Hrs).
  injection Hout as -> ->. simpl in Hi. rewrite list_lookup_fmap in Hi.
  destruct (rs !! i) as [r|] eqn:Hr; [|discriminate]. injection Hi as <-.
  destruct (proj1 (Forall_lookup _ _) Hrs i r Hr) as (k & soll & Hb & Hk & Hs & Er).
  assert (contributors data r.1.1 contracts <> []) as Hne.
  { intros Hnil.
    destruct (accumulate_absent _ _ _ _ Hacc r.1.1) as [Hnone _]; [by right|].
    congruence. }
  destruct (accumulate_present _ _ _ _ Hnd Hacc r.1.1 Hb Hne)
    as (Hfc & k' & rows & Hk' & Hrows & Hsums).
  rewrite Hk in Hk'. injection Hk' as <-.
  exists rows, soll, (means_of k), (kpi_minus (means_of k) soll).
  split; [exact Hfc|]. split; [exact Hrows|].
  split; [|split; [|split; [|split; [|split]]]].
  - intros ->. apply Forall2_nil_inv_r in Hrows. done.
  - destruct kpi_data_mnummer; [discriminate | by injection Hs as ->].
  - change (row_at (tables_of rs).1 (tables_of rs).2 i = Some
              (r.1.1, means_of k, kpi_minus (means_of k) soll)).
    by rewrite row_at_tables, Hr, Er at 1.
  - by apply means_of_sums.
  - reflexivity.
  - intros a b ->. eapply kpi_eq_trans; [by apply means_of_sums|].
    apply mean_of_two.
Qed.

(** C2: a footprint outside the baseline footprints is in none of the three
    outputs, whatever the contracts' own footprints are: not among the KPI
    values, not a key of the footprint-to-contracts map, and every entry of
    the deltas belongs to a baseline footprint. *)
Theorem baseline_universe (data : DataFrame) (contracts : list string)
    (kpi_data_mnummer : list KpiRow) (kv : KpiValues)
    (fc : gmap footprint (list string)) (d : DiffToSoll)
    (base : list footprint) (fp : footprint) :
  analyze_footprints_by_kpi data contracts kpi_data_mnummer = Ok (kv, fc, d) ->
  extract_footprints data "End Date Actual" "Contract" "Operation RelNr"
    = Ok base ->
  fp ∉ base ->
  (fp ∉ kv_fp kv) /\
  fc !! fp = None /\
  (forall i, delta_entry d i ->
     exists fp', fp' ∈ base /\ fp' <> fp /\ kv_fp kv !! i = Some fp' /\
                 d_Footprint d !! i = Some (label fp')).
Proof.
  intros Hrun Hbase Hfp.
  destruct (analyze_Ok _ _ _ _ _ _ Hrun) as (base' & acc & Hbase' & Hacc & Hfin & ->).
  rewrite Hbase in Hbase'. injection Hbase' as <-.
  repeat apply conj.
  - destruct (finalize_tables _ _ _ _ Hfin) as (rs & Hout & Hrs).
    injection Hout as -> ->. simpl. intros Hin.
    apply list_elem_of_fmap in Hin as (r & -> & Hr).
    destruct (proj1 (Forall_forall _ _) Hrs r Hr) as (k & soll & Hb & _). done.
  - by destruct (accumulate_absent _ _ _ _ Hacc fp); [left|].
  - intros i Hi.
    destruct (deltas_follow_kpi_values _ _ _ _ _ _ _ Hbase Hacc Hfin i Hi)
      as (fp' & Hb & _ & Hkv & Hd).
    exists fp'. repeat split; try done. by intros ->.
Qed.

(** C7: a baseline footprint to which no contract contributed is silently
    left out: the finalizing iteration for it returns the tables unchanged,
    without raising, and the footprint is in none of the three outputs. *)
Theorem uncontributed_footprint_omitted (data : DataFrame)
    (contracts : list string) (base : list footprint) (acc : accumulators)
    (fp : footprint) :
  extract_footprints data "End Date Actual" "Contract" "Operation RelNr"
    = Ok base ->
  accumulate data contracts base = Ok acc ->
  fp ∈ base ->
  contributors data fp contracts = [] ->
  (forall kpi_data_mnummer out,
     finalize_step (footprint_kpis acc) kpi_data_mnummer out fp = Ok out) /\
  (forall kpi_data_mnummer (kv : KpiValues)
          (fc : gmap footprint (list string)) (d : DiffToSoll),
     analyze_footprints_by_kpi data contracts kpi_data_mnummer = Ok (kv, fc, d) ->
     (fp ∉ kv_fp kv) /\
     fc !! fp = None /\
     (forall i, delta_entry d i ->
        exists fp', fp' <> fp /\ kv_fp kv !! i = Some fp' /\
                    d_Footprint d !! i = Some (label fp'))).
Proof.
  intros Hbase Hacc Hfp Hnone.
  destruct (accumulate_absent _ _ _ _ Hacc fp) as [Hk Hc]; [by right|].
  split.
  - intros kpi_data_mnummer out. unfold finalize_step. by rewrite Hk.
  - intros kpi_data_mnummer kv fc d Hrun.
    destruct (analyze_Ok _ _ _ _ _ _ Hrun)
      as (base' & acc' & Hbase' & Hacc' & Hfin & ->).
    rewrite Hbase in Hbase'. injection Hbase' as <-.
    rewrite Hacc in Hacc'. injection Hacc' as <-.
    repeat apply conj; [|done|].
    + destruct (finalize_tables _ _ _ _ Hfin) as (rs & Hout & Hrs).
      injection Hout as -> ->. simpl. intros Hin.
      apply list_elem_of_fmap in Hin as (r & -> & Hr).
      destruct (proj1 (Forall_forall _ _) Hrs r Hr) as (k & soll & _ & Hk' & _).
      congruence.
    + intros i Hi.
      destruct (deltas_follow_kpi_values _ _ _ _ _ _ _ Hbase Hacc Hfin i Hi)
        as (fp' & _ & [k Hk'] & Hkv & Hd).
      exists fp'. repeat split; try done. intros ->. congruence.
Qed.

End Analysis.

(** The rows handed to the discovery primitive are those with an end date,
    whichever column is named as the time column. *)
Lemma extract_footprints_temp_rows (data temp : DataFrame)
    (time case_id activity : string) :
  extract_footprints_temp data time case_id activity = Ok temp ->
  exists i,
    position "End Date Actual" (columns data) = Some i /\
    rows temp = List.filter (fun row => notna (cell_at i row)) (rows data).
Proof.
  unfold extract_footprints_temp, loc_notna, loc_by.
  destruct (position "End Date Actual" (columns data)) as [i|]; [|discriminate].
  simpl. intros [= <-]. by exists i.
Qed.

Section Skipping.
Context `{Externals}.

Lemma contract_kpi_data_empty (pg : DataFrame) :
  contract_kpi_data pg = Ok [] -> rows pg = [].
Proof.
  unfold contract_kpi_data. intros Hrun.
  repeat inv_bind Hrun. by destruct (rows pg).
Qed.

(** Without a row in [kpi_data] the attribution loop raises at the first
    baseline footprint found among the contract's own, and changes nothing
    when there is none. *)
Lemma attribute_loop_without_kpi contract dfg base acc :
  for_each (attribute [] contract dfg) base acc
  = if decide (Exists (fun fp => fp ∈ dfg) base)
    then Raise IndexError else Ok acc.
Proof.
  induction base as [|b base IH]; cbn [for_each].
  - rewrite decide_False; [done|]. by intros Hex%Exists_nil.
  - assert (attribute [] contract dfg acc b
            = if bool_decide (b ∈ dfg) then Raise IndexError else Ok acc) as ->.
    { unfold attribute. case_bool_decide; [|done].
      by destruct (footprint_kpis acc !! b). }
    case_bool_decide as Hb.
    + rewrite decide_True; [done|]. by apply Exists_cons; left.
    + unfold mbind, result_bind. rewrite IH. apply decide_ext.
      rewrite Exists_cons. tauto.
Qed.

(** For a contract whose KPI table has no rows, lines 252-272 come to the
    discovery on the frame without rows. *)
Lemma contract_view_without_kpi data pg_df_filtered contract base :
  loc_eq data "Contract" contract = Ok pg_df_filtered ->
  contract_kpi_data pg_df_filtered = Ok [] ->
  extract_footprints data "End Date Actual" "Contract" "Operation RelNr"
    = Ok base ->
  contract_view data contract
  = dfg ← discover_footprints (without_events data); Ok ([], dfg).
Proof.
  intros Hpg Hkpi Hbase.
  unfold extract_footprints in Hbase. inv_bind Hbase.
  destruct (extract_footprints_temp_rows _ _ _ _ _ Ha) as (i & Hi & _).
  pose proof (contract_kpi_data_empty _ Hkpi) as Hrows.
  unfold contract_view. rewrite Hpg; simpl. rewrite Hkpi; simpl.
  unfold loc_eq, loc_by in Hpg.
  destruct (position "Contract" (columns data)); [|discriminate].
  injection Hpg as <-. unfold loc_notna, loc_by; simpl in *.
  by rewrite Hi, Hrows.
Qed.

(** The iteration for such a contract: that discovery, then the attribution
    loop without KPI values. *)
Lemma contract_step_without_kpi data pg_df_filtered contract base :
  loc_eq data "Contract" contract = Ok pg_df_filtered ->
  contract_kpi_data pg_df_filtered = Ok [] ->
  extract_footprints data "End Date Actual" "Contract" "Operation RelNr"
    = Ok base ->
  forall acc,
    contract_step data base acc contract
    = dfg ← discover_footprints (without_events data);
      for_each (attribute [] contract dfg) base acc.
Proof.
  intros Hpg Hkpi Hbase acc. unfold contract_step.
  rewrite (contract_view_without_kpi _ _ _ _ Hpg Hkpi Hbase).
  by destruct (discover_footprints (without_events data)).
Qed.

(** C9, as the code has it: for a contract whose KPI table has no rows the
    discovery primitive is called on a frame without rows, and the
    contract never contributes anything.  It is passed over, the analysis
    being the one of the remaining contracts, when the primitive returns no
    baseline footprint for that frame.  When the primitive raises for it,
    the iteration raises the same error for every accumulator and the
    analysis stops at this contract; when it returns a baseline footprint,
    [.iloc[0]] raises [IndexError]. *)
Theorem empty_kpi_table_contract (data pg_df_filtered : DataFrame)
    (contract : string) (base : list footprint) :
  loc_eq data "Contract" contract = Ok pg_df_filtered ->
  contract_kpi_data pg_df_filtered = Ok [] ->
  extract_footprints data "End Date Actual" "Contract" "Operation RelNr"
    = Ok base ->
  contract_view data contract
  = (dfg ← discover_footprints (without_events data); Ok ([], dfg)) /\
  (forall acc acc',
     contract_step data base acc contract = Ok acc' -> acc' = acc) /\
  (forall e,
     discover_footprints (without_events data) = Raise e ->
     (forall acc, contract_step data base acc contract = Raise e) /\
     (forall before after kpi_data_mnummer acc,
        accumulate data before base = Ok acc ->
        analyze_footprints_by_kpi data (before ++ contract :: after)
          kpi_data_mnummer = Raise e)) /\
  (forall dfg,
     discover_footprints (without_events data) = Ok dfg ->
     if decide (Exists (fun fp => fp ∈ dfg) base)
     then forall acc, contract_step data base acc contract = Raise IndexError
     else (forall acc, contract_step data base acc contract = Ok acc) /\
          (forall before after kpi_data_mnummer,
             analyze_footprints_by_kpi data (before ++ contract :: after)
               kpi_data_mnummer
             = analyze_footprints_by_kpi data (before ++ after)
                 kpi_data_mnummer)).
Proof.
  intros Hpg Hkpi Hbase.
  pose proof (contract_step_without_kpi _ _ _ _ Hpg Hkpi Hbase) as Hstep.
  split; [by eapply contract_view_without_kpi|]. split; [|split].
  - intros acc acc'. rewrite Hstep.
    destruct (discover_footprints (without_events data)) as [dfg|e]; simpl;
      [|done].
    rewrite attribute_loop_without_kpi. case_decide; [done|].
    by intros [= <-].
  - intros e He.
    assert (forall acc, contract_step data base acc contract = Raise e) as Hraise.
    { intros acc. by rewrite Hstep, He. }
    split; [exact Hraise|].
    intros before after kpi_data_mnummer acc Hacc.
    unfold analyze_footprints_by_kpi, accumulate in *. rewrite Hbase; simpl.
    rewrite for_each_app, Hacc; simpl. by rewrite Hraise.
  - intros dfg Hdfg.
    assert (forall acc,
              contract_step data base acc contract
              = if decide (Exists (fun fp => fp ∈ dfg) base)
                then Raise IndexError else Ok acc) as Hloop.
    { intros acc. rewrite Hstep, Hdfg; simpl. apply attribute_loop_without_kpi. }
    case_decide as Hfound; [exact Hloop|].
    split; [exact Hloop|].
    intros before after kpi_data_mnummer.
    unfold analyze_footprints_by_kpi, accumulate. rewrite Hbase; simpl.
    by rewrite for_each_skip.
Qed.

(** The claim C9 fails on the code with the discovery of the library: the
    contract Q has no row in the production data, its KPI table has no
    rows, and the analysis of the contracts X, Q and Y raises at Q, while
    the one of X and Y returns. *)
Lemma empty_kpi_table_raises :
  loc_eq Reference.production "Contract" "Q"
    = Ok {| columns := Reference.production_columns; rows := [] |} /\
  contract_kpi_data (H := Reference.reference)
    {| columns := Reference.production_columns; rows := [] |} = Ok [] /\
  (exists out,
     analyze_footprints_by_kpi (H := Reference.reference) Reference.production
       ["X"; "Y"] Reference.soll = Ok out) /\
  analyze_footprints_by_kpi (H := Reference.reference) Reference.production
    ["X"; "Q"; "Y"] Reference.soll = Raise ValueError.
Proof.
  split; [reflexivity|]. split; [reflexivity|]. split.
  - eexists. vm_compute. reflexivity.
  - vm_compute. reflexivity.
Qed.

End Skipping.

(** C8 fails on the code: the null filter of [extract_footprints] reads the
    column ['End Date Actual'] whatever [time] names, so with another time
    column an event whose time is null reaches the discovery primitive. *)
Theorem extract_footprints_keeps_null_time :
  exists temp,
    extract_footprints_temp Reference.started_late
      "Start Date Actual" "Contract" "Operation RelNr" = Ok temp /\
    columns temp
      = ["case:concept:name"; "concept:name"; "time:timestamp";
         "End Date Actual"] /\
    column temp "time:timestamp" = Ok [NA; Num 5] /\
    length (rows temp) = length (rows Reference.started_late).
Proof. eexists. repeat split. Qed.

End AnalyzerFacts.

(** ** The statements at concrete inputs *)

Module Examples.
Import Frame Analyzer Reference Classifier ClassifierFacts AnalyzerFacts.

Lemma neutral_band_example : classify 1 1 1 false = "blue".
Proof. apply neutral_band; reflexivity. Defined.

Lemma severity_steps_example :
  severity (classify (5 # 2) 1 1 false) = Some 1%nat /\
  severity (classify (-4) 1 1 true) = Some 4%nat.
Proof.
  split.
  - refine (proj1 (severity_steps (5 # 2) 1 1 false _) _);
      [reflexivity | split; [reflexivity | discriminate]].
  - refine (proj1 (proj2 (proj2 (proj2 (proj2 (proj2 (proj2 (proj2
              (severity_steps (-4) 1 1 true _)))))))) _); reflexivity.
Defined.

Lemma zero_spread_classification_example :
  severity (classify 2 1 0 true) = Some 4%nat.
Proof.
  refine (proj2 (proj2 (proj2 (zero_spread_classification 2 1 0 true _))) _);
    [reflexivity | discriminate].
Defined.

(** The reference primitive returns nothing for a frame without rows: it
    raises. *)
Lemma reference_discover_empty (frame : DataFrame) (dfg : list footprint) :
  rows frame = [] -> discover_footprints frame = Ok dfg -> dfg = [].
Proof.
  intros Hrows. simpl. unfold reference_discover, on_rows. by rewrite Hrows.
Qed.

Lemma footprint_means_and_deltas_example :
  exists (rs : list KpiRow) (target m dl : KpiRow),
    production_fc !! ("A", "B")
      = Some (contributors production ("A", "B") contracts_in_scope) /\
    Forall2 (fun c r => contract_means production c = Some r)
      (contributors production ("A", "B") contracts_in_scope) rs /\
    rs <> [] /\
    iloc0 soll = Ok target /\
    row_at production_kv production_d 0 = Some (("A", "B"), m, dl) /\
    kpi_eq m (mean_of_rows rs) /\
    dl = kpi_minus m target /\
    (forall a b, rs = [a; b] -> kpi_eq m (half_sum a b)).
Proof.
  apply (footprint_means_and_deltas production contracts_in_scope soll
           production_kv production_fc production_d).
  - vm_compute. reflexivity.
  - reflexivity.
Defined.

Lemma baseline_universe_example :
  (("B", "C") ∉ kv_fp mixed_kv) /\
  mixed_fc !! ("B", "C") = None /\
  (forall i, delta_entry mixed_d i ->
     exists fp', fp' ∈ [("A", "B")] /\ fp' <> ("B", "C") /\
                 kv_fp mixed_kv !! i = Some fp' /\
                 d_Footprint mixed_d !! i = Some (label fp')).
Proof.
  apply (baseline_universe (H := filtering) mixed ["X"; "Y"; "Z"] soll
           mixed_kv mixed_fc mixed_d [("A", "B")] ("B", "C")).
  - vm_compute. reflexivity.
  - vm_compute. reflexivity.
  - intros Hin. apply list_elem_of_singleton in Hin. discriminate.
Defined.

(** In that run contract Z does exhibit the footprint left out. *)
Example mixed_contract_footprints :
  contract_footprints (H := filtering) mixed "Z" = [("B", "C")].
Proof. vm_compute. reflexivity. Qed.

(** The end-to-end scenario: two contracts with OEE means 0.9 and 0.7 on
    the footprint (A, B), a target of 0.75 and a spread of 0.05. *)
Example end_to_end_scenario :
  kv_fp production_kv = [("A", "B")] /\
  Forall2 Qeq (kv_OEE production_kv) [8 # 10] /\
  Forall2 Qeq (d_OEE production_d) [5 # 100] /\
  determine_color (8 # 10) ((75 # 100) + (5 # 100) / 2) ((75 # 100) - (5 # 100))
    (5 # 100) true = at_index green_pallete 0.
Proof. repeat split; repeat constructor. Qed.

Lemma uncontributed_footprint_omitted_example :
  (forall kpi_data_mnummer out,
     finalize_step (footprint_kpis no_accumulators) kpi_data_mnummer out
       ("A", "B") = Ok out) /\
  (forall kpi_data_mnummer (kv : KpiValues)
          (fc : gmap footprint (list string)) (d : DiffToSoll),
     analyze_footprints_by_kpi production ["Z"] kpi_data_mnummer
       = Ok (kv, fc, d) ->
     (("A", "B") ∉ kv_fp kv) /\
     fc !! ("A", "B") = None /\
     (forall i, delta_entry d i ->
        exists fp', fp' <> ("A", "B") /\ kv_fp kv !! i = Some fp' /\
                    d_Footprint d !! i = Some (label fp'))).
Proof.
  apply (uncontributed_footprint_omitted production ["Z"] [("A", "B")]
           no_accumulators ("A", "B")).
  - vm_compute. reflexivity.
  - vm_compute. reflexivity.
  - apply list_elem_of_singleton. reflexivity.
  - vm_compute. reflexivity.
Defined.

Lemma empty_kpi_table_contract_example :
  contract_view production "Q"
  = (dfg ← discover_footprints (without_events production); Ok ([], dfg)) /\
  (forall acc acc',
     contract_step production [("A", "B")] acc "Q" = Ok acc' -> acc' = acc) /\
  (forall e,
     discover_footprints (without_events production) = Raise e ->
     (forall acc, contract_step production [("A", "B")] acc "Q" = Raise e) /\
     (forall before after kpi_data_mnummer acc,
        accumulate production before [("A", "B")] = Ok acc ->
        analyze_footprints_by_kpi production (before ++ "Q" :: after)
          kpi_data_mnummer = Raise e)) /\
  (forall dfg,
     discover_footprints (without_events production) = Ok dfg ->
     if decide (Exists (fun fp => fp ∈ dfg) [("A", "B")])
     then forall acc,
            contract_step production [("A", "B")] acc "Q" = Raise IndexError
     else (forall acc, contract_step production [("A", "B")] acc "Q" = Ok acc) /\
          (forall before after kpi_data_mnummer,
             analyze_footprints_by_kpi production (before ++ "Q" :: after)
               kpi_data_mnummer
             = analyze_footprints_by_kpi production (before ++ after)
                 kpi_data_mnummer)).
Proof.
  apply (empty_kpi_table_contract production
           {| columns := production_columns; rows := [] |} "Q" [("A", "B")]).
  - vm_compute. reflexivity.
  - vm_compute. reflexivity.
  - vm_compute. reflexivity.
Defined.

End Examples.

(** ** Further facts about the classifier *)

Module ClassifierExtras.
Import Classifier ClassifierFacts.

(** The neutral sentinel is returned exactly for the values from the lower
    to the upper bound, the bounds included, in either direction. *)
Theorem neutral_iff_within_bounds (val upper_bound lower_bound sd : Q)
    (reverse : bool) :
  determine_color val upper_bound lower_bound sd reverse = "blue"
  <-> lower_bound <= val <= upper_bound.
Proof.
  unfold determine_color. destruct reverse; cmp_cases;
    (split; [discriminate | intros [? ?]; exfalso; lra]) ||
    (split; [intros _; split; lra | reflexivity]).
Qed.

(** Above the upper bound the colour is red, or green when reversed; at or
    under it and below the lower bound it is green, or red when reversed. *)
Theorem palette_by_side (val upper_bound lower_bound sd : Q) (reverse : bool) :
  (upper_bound < val ->
   palette_of (determine_color val upper_bound lower_bound sd reverse)
   = Some (if reverse then Green else Red)) /\
  (val <= upper_bound -> val < lower_bound ->
   palette_of (determine_color val upper_bound lower_bound sd reverse)
   = Some (if reverse then Red else Green)).
Proof.
  split; intros; unfold determine_color; destruct reverse; cmp_cases.
Qed.

(** Further from the bound never means a lower severity, whatever the
    standard deviation. *)
Theorem severity_monotone (v1 v2 upper_bound lower_bound sd : Q) (reverse : bool) :
  (upper_bound < v1 -> v1 <= v2 ->
   exists n1 n2 : nat,
     severity (determine_color v1 upper_bound lower_bound sd reverse) = Some n1 /\
     severity (determine_color v2 upper_bound lower_bound sd reverse) = Some n2 /\
     (n1 <= n2)%nat) /\
  (v1 <= upper_bound -> v1 < lower_bound -> v2 <= v1 ->
   exists n1 n2 : nat,
     severity (determine_color v1 upper_bound lower_bound sd reverse) = Some n1 /\
     severity (determine_color v2 upper_bound lower_bound sd reverse) = Some n2 /\
     (n1 <= n2)%nat).
Proof.
  split; intros; unfold determine_color; destruct reverse; cmp_cases;
    (eexists _, _; split; [reflexivity|]; split; [reflexivity|]; lia).
Qed.

(** With a standard deviation that is not negative the mean itself is
    neutral, for every KPI. *)
Theorem mean_is_neutral (mean sd : Q) (kpi : string) :
  0 <= sd -> fp_color mean mean sd kpi = "blue".
Proof.
  intros Hsd. unfold fp_color, determine_color.
  destruct (String.eqb kpi "OEE"); cmp_cases; exfalso; qlra.
Qed.

End ClassifierExtras.

(** ** Outliers, their plot and their edge markings *)

Module OutlierFacts.
Import Frame Analyzer Classifier ClassifierFacts Plotting Markings.

Lemma coloured_spec (c : string) : coloured c = true <-> c <> "blue".
Proof.
  unfold coloured. destruct (String.eqb_spec c "blue"); simpl; split;
    congruence.
Qed.

Section Outliers.
Context {A : Type} (mean sd : Q) (kpi : string).

Lemma outliers_from_None (footprints : list A) (values : list Q) :
  outliers_from footprints values mean sd kpi = None
  <-> (length footprints < length values)%nat.
Proof.
  revert footprints. induction values as [|val values IH];
    intros [|fp footprints]; simpl; try (split; [discriminate | lia]).
  - split; [lia | done].
  - specialize (IH footprints).
    destruct (outliers_from footprints values mean sd kpi) as [[outs cols]|].
    + destruct (String.eqb _ "blue");
        (split; [discriminate | intros Hlt; exfalso;
                 assert (Some (outs, cols) = None) by (apply IH; lia); done]).
    + split; [intros _; apply ->Nat.succ_lt_mono; by apply IH | done].
Qed.

(** The loop keeps the pairs of footprint and colour whose colour is not the
    neutral one. *)
Lemma outliers_from_Some (footprints : list A) (values : list Q) outs cols :
  outliers_from footprints values mean sd kpi = Some (outs, cols) ->
  zip outs cols
  = List.filter (fun p => coloured p.2)
      (zip footprints (map (fun val => fp_color val mean sd kpi) values)) /\
  length outs = length cols /\
  cols = List.filter coloured (map (fun val => fp_color val mean sd kpi) values).
Proof.
  revert footprints outs cols. induction values as [|val values IH];
    intros [|fp footprints] outs cols; simpl; try discriminate.
  - by intros [= <- <-].
  - by intros [= <- <-].
  - destruct (outliers_from footprints values mean sd kpi) as [[outs' cols']|]
      eqn:Hrec; [|discriminate].
    destruct (IH _ _ _ Hrec) as (Hzip & Hlen & Hcols).
    unfold coloured in *. simpl.
    destruct (String.eqb (fp_color val mean sd kpi) "blue"); simpl;
      intros [= <- <-]; simpl; [done|].
    by rewrite Hzip, Hlen, <- Hcols.
Qed.

End Outliers.

Lemma scatter_colors_fp_color (values : list Q) (mean sd : Q) (ylabel : string) :
  scatter_colors values mean sd ylabel
  = map (fun val => fp_color val mean sd ylabel) values.
Proof.
  unfold scatter_colors, fp_color. by destruct (String.eqb ylabel "OEE").
Qed.

Lemma extract_edge_markings_zip (fps : list footprint) (cols : list string) :
  (length fps <= length cols)%nat ->
  extract_edge_markings fps cols
  = Ok (map (fun p => {| src := p.1.1; dest := p.1.2; color := p.2 |})
          (zip fps cols)).
Proof.
  revert cols. induction fps as [|fp fps IH]; intros [|c cols] Hlen;
    simpl in *; try done; try lia.
  rewrite IH by lia. done.
Qed.

Lemma extract_edge_markings_short (fps : list footprint) (cols : list string) :
  (length cols < length fps)%nat ->
  extract_edge_markings fps cols = Raise IndexError.
Proof.
  revert cols. induction fps as [|fp fps IH]; intros [|c cols] Hlen;
    simpl in *; try done; try lia.
  rewrite IH by lia. done.
Qed.

(** [calculate_outlier_footprints] raises exactly when there are fewer
    footprints than values. *)
Theorem outliers_raise_iff_short {A : Type} (footprints : list A)
    (values : list Q) (mean sd : Q) (kpi : string) :
  calculate_outlier_footprints footprints values mean sd kpi = None
  <-> (length footprints < length values)%nat.
Proof. apply outliers_from_None. Qed.

(** What [calculate_outlier_footprints] returns: the footprints paired with
    the colours of their values, the neutral ones left out, in order. *)
Theorem outliers_are_the_coloured_pairs {A : Type} (footprints : list A)
    (values : list Q) (mean sd : Q) (kpi : string)
    (outliers : list A) (outlier_colors : list string) :
  calculate_outlier_footprints footprints values mean sd kpi
    = Some (outliers, outlier_colors) ->
  length outliers = length outlier_colors /\
  zip outliers outlier_colors
  = List.filter (fun p => negb (String.eqb p.2 "blue"))
      (zip footprints (map (fun val => fp_color val mean sd kpi) values)) /\
  Forall (fun c => c <> "blue" /\ exists n, severity c = Some n) outlier_colors.
Proof.
  intros Hrun. destruct (outliers_from_Some _ _ _ _ _ _ _ Hrun)
    as (Hzip & Hlen & Hcols).
  split; [done|]. split; [done|].
  rewrite Hcols. apply Forall_forall. intros c Hc.
  apply list_elem_of_In, List.filter_In in Hc as [Hin Hc].
  apply coloured_spec in Hc. split; [done|].
  apply List.in_map_iff in Hin as (val & <- & _).
  revert Hc. unfold fp_color, determine_color.
  destruct (String.eqb kpi "OEE"); cmp_cases; intros; (done || by eexists).
Qed.

(** The scatter plot and the outlier list colour alike: the outlier colours
    are the colours of the plotted points, the neutral ones left out. *)
Theorem scatter_agrees_with_outliers {A : Type} (footprints : list A)
    (labels : list string) (values : list Q) (mean sd : Q)
    (title xlabel kpi : string) (outliers : list A)
    (outlier_colors : list string) :
  calculate_outlier_footprints footprints values mean sd kpi
    = Some (outliers, outlier_colors) ->
  exists colors,
    plt_scatter labels values "o" colors
      ∈ draw_footprint_kpi_scatter labels values mean sd title xlabel kpi /\
    length colors = length values /\
    outlier_colors
    = List.filter (fun c => negb (String.eqb c "blue")) colors.
Proof.
  intros Hrun. exists (scatter_colors values mean sd kpi). split.
  - unfold draw_footprint_kpi_scatter. apply elem_of_app. left.
    apply elem_of_cons. right. apply elem_of_cons. by left.
  - rewrite scatter_colors_fp_color, length_map. split; [done|].
    by destruct (outliers_from_Some _ _ _ _ _ _ _ Hrun) as (_ & _ & ->).
Qed.

(** The figure keeps the proportions 4:3, is never smaller than 16 by 12,
    has that size exactly up to 100 points, and never shrinks with more
    points. *)
Theorem figsize_proportions (n m : Z) :
  (3 * (scatter_figsize n).1 = 4 * (scatter_figsize n).2)%Z /\
  ((scatter_figsize n).1 = 16 <-> n <= 100)%Z /\
  (16 <= (scatter_figsize n).1)%Z /\
  ((n <= m)%Z -> ((scatter_figsize n).1 <= (scatter_figsize m).1)%Z).
Proof.
  unfold scatter_figsize.
  destruct (Z.ltb_spec 100 n) as [Hn|Hn]; simpl.
  - assert (1 <= n / 100)%Z by (apply Z.div_le_lower_bound; lia).
    repeat split; try lia.
    intros Hnm. destruct (Z.ltb_spec 100 m) as [Hm|Hm]; simpl; [|lia].
    assert (n / 100 <= m / 100)%Z by (apply Z.div_le_mono; lia). lia.
  - repeat split; try lia.
    intros Hnm. destruct (Z.ltb_spec 100 m) as [Hm|Hm]; simpl; [|lia].
    assert (1 <= m / 100)%Z by (apply Z.div_le_lower_bound; lia). lia.
Qed.

(** The plot draws the mean, the upper bound of the classifier and a lower
    line that is the lower bound unless that is not positive, then zero.
    Every point that is not neutral lies strictly outside the two lines, and
    every point above the upper line is not neutral. *)
Theorem coloured_points_outside_lines (labels : list string) (values : list Q)
    (mean sd : Q) (title xlabel ylabel : string) :
  exists up low : Q,
    axhlines (draw_footprint_kpi_scatter labels values mean sd title xlabel ylabel)
    = [mean; up; low] /\
    0 <= low /\
    (forall val, fp_color val mean sd ylabel <> "blue" -> up < val \/ val < low) /\
    (forall val, up < val -> fp_color val mean sd ylabel <> "blue").
Proof.
  unfold draw_footprint_kpi_scatter, interval_lines, fp_color, determine_color.
  destruct (String.eqb ylabel "OEE"); simpl.
  - eexists _, _. split; [reflexivity|]. repeat apply conj.
    + cmp_cases; lra.
    + intros val. cmp_cases; intros; (done || (left; qlra) || (right; qlra)).
    + intros val. cmp_cases; intros; (discriminate || (exfalso; qlra)).
  - eexists _, _. split; [reflexivity|]. repeat apply conj.
    + cmp_cases; lra.
    + intros val. cmp_cases; intros; (done || (left; qlra) || (right; qlra)).
    + intros val. cmp_cases; intros; (discriminate || (exfalso; qlra)).
Qed.

(** [extract_edge_markings] raises exactly when the colours are fewer than
    the footprints; otherwise it pairs them in order, one marking for each
    footprint, and ignores the colours left over. *)
Theorem edge_markings_pairing (fps : list footprint) (fps_colors : list string) :
  ((length fps_colors < length fps)%nat ->
   extract_edge_markings fps fps_colors = Raise IndexError) /\
  ((length fps <= length fps_colors)%nat ->
   exists edge_markings,
     extract_edge_markings fps fps_colors = Ok edge_markings /\
     map (fun m => (src m, dest m)) edge_markings = fps /\
     map color edge_markings = take (length fps) fps_colors).
Proof.
  split; [apply extract_edge_markings_short|].
  intros Hlen. eexists. split; [by apply extract_edge_markings_zip|].
  rewrite !List.map_map; simpl. split.
  - revert fps_colors Hlen. induction fps as [|[a b] fps IH];
      intros [|c cols] Hlen; simpl in *; try done; try lia.
    f_equal. apply IH. lia.
  - revert fps_colors Hlen. induction fps as [|fp fps IH];
      intros [|c cols] Hlen; simpl in *; try done; try lia.
    f_equal. apply IH. lia.
Qed.

(** The outliers found by [calculate_outlier_footprints] can always be turned
    into edge markings: one for each outlier, between operations of a given
    footprint, none of them in the neutral colour. *)
Theorem outliers_give_edge_markings (footprints : list footprint)
    (values : list Q) (mean sd : Q) (kpi : string)
    (outliers : list footprint) (outlier_colors : list string) :
  calculate_outlier_footprints footprints values mean sd kpi
    = Some (outliers, outlier_colors) ->
  exists edge_markings,
    extract_edge_markings outliers outlier_colors = Ok edge_markings /\
    length edge_markings = length outliers /\
    Forall (fun m => color m <> "blue" /\ (src m, dest m) ∈ footprints)
      edge_markings.
Proof.
  intros Hrun. destruct (outliers_from_Some _ _ _ _ _ _ _ Hrun)
    as (Hzip & Hlen & Hcols).
  eexists. split; [apply extract_edge_markings_zip; lia|].
  rewrite length_map, length_zip, <- Hlen, Nat.min_id. split; [done|].
  rewrite Hzip. apply Forall_forall. intros m Hm.
  apply list_elem_of_fmap in Hm as ([[a b] c] & -> & Hp). simpl.
  apply list_elem_of_In, List.filter_In in Hp as [Hin Hc]. simpl in Hc.
  split; [by apply coloured_spec|].
  apply list_elem_of_In in Hin. by apply elem_of_zip_l in Hin.
Qed.

End OutlierFacts.

(** ** Frames for the drawing of graphs, and the KPI targets *)

Module BaselineFacts.
Import Frame Analyzer AnalyzerFacts Baseline.

Abbreviation drawing_columns :=
  (pm4py_columns "End Date Actual" "Contract" "Operation RelNr") (only parsing).

Ltac label_cases c :=
  repeat match goal with
    | |- context [String.eqb c ?x] => destruct (String.eqb_spec c x) as [->|?]
    end.

(** The renaming for the discovery primitive leaves no column under one of
    the three production labels ... *)
Lemma renamed_labels_gone (cols : list string) (old : string) :
  old ∈ ["End Date Actual"; "Contract"; "Operation RelNr"] ->
  position old (map drawing_columns cols) = None.
Proof.
  intros Hold. induction cols as [|c cols IH]; simpl; [done|]. rewrite IH.
  assert (String.eqb old (drawing_columns c) = false) as ->; [|done].
  apply String.eqb_neq. unfold pm4py_columns.
  rewrite !elem_of_cons, elem_of_nil in Hold.
  destruct Hold as [->|[->|[->|[]]]];
    label_cases c; congruence.
Qed.

(** ... and puts a new label where the old one was, when the frame did not
    have the new label before. *)
Lemma renamed_label_position (cols : list string) (old new : string) :
  (old, new) ∈ [("End Date Actual", "time:timestamp");
                ("Contract", "case:concept:name")] ->
  new ∉ cols ->
  position new (map drawing_columns cols) = position old cols.
Proof.
  intros Hpair. induction cols as [|c cols IH]; simpl; [done|].
  intros Hnew. apply not_elem_of_cons in Hnew as [Hc Hnew]. rewrite IH by done.
  assert (String.eqb new (drawing_columns c) = String.eqb old c) as ->; [|done].
  unfold pm4py_columns.
  rewrite !elem_of_cons, elem_of_nil in Hpair.
  destruct Hpair as [[= -> ->]|[[= -> ->]|[]]];
    label_cases c; try done;
    repeat match goal with
      | |- context [String.eqb ?a ?b] => destruct (String.eqb_spec a b)
      end; congruence.
Qed.

Lemma filter_twice {A : Type} (f g : A -> bool) (l : list A) :
  List.filter g (List.filter f l) = List.filter (fun x => f x && g x) l.
Proof.
  induction l as [|x l IH]; simpl; [done|].
  destruct (f x); simpl; [destruct (g x)|]; by rewrite IH.
Qed.

Lemma loc_by_Ok keep data label curr :
  loc_by keep data label = Ok curr ->
  exists i,
    position label (columns data) = Some i /\
    columns curr = columns data /\
    rows curr = List.filter (fun row => keep (cell_at i row)) (rows data).
Proof.
  unfold loc_by. destruct (position label (columns data)) as [i|]; [|done].
  intros [= <-]. by exists i.
Qed.

Lemma cell_in_singleton (contract : string) (c : cell) :
  cell_in [contract] c = cell_is contract c.
Proof. destruct c; simpl; [done | done | by rewrite orb_false_r]. Qed.

Lemma filter_data_by_contract_Ok data contracts curr :
  filter_data_by_contract data contracts = Ok curr ->
  exists i j,
    position "Contract" (columns data) = Some i /\
    position "End Date Actual" (columns data) = Some j /\
    columns curr = map drawing_columns (columns data) /\
    rows curr
    = List.filter (fun row => cell_in contracts (cell_at i row)
                              && notna (cell_at j row)) (rows data).
Proof.
  unfold filter_data_by_contract, loc_isin, loc_notna. intros Hrun.
  inv_bind Hrun. inv_bind Hrun. injection Hrun as <-.
  destruct (loc_by_Ok _ _ _ _ Ha) as (i & Hi & Hc & Hr).
  destruct (loc_by_Ok _ _ _ _ Ha0) as (j & Hj & Hc' & Hr').
  exists i, j. rewrite Hc in Hj. simpl. rewrite Hc', Hc, Hr', Hr.
  repeat split; try done. apply filter_twice.
Qed.

(** [filter_data_by_contract] raises exactly when the frame lacks the
    contract or the end date column; otherwise it keeps, in order, the rows
    of the listed contracts that have an end date, and renames the columns. *)
Theorem filter_data_by_contract_result (data : DataFrame)
    (contracts : list string) :
  match position "Contract" (columns data),
        position "End Date Actual" (columns data) with
  | Some i, Some j =>
      filter_data_by_contract data contracts
      = Ok {| columns := map drawing_columns (columns data);
              rows := List.filter
                        (fun row => cell_in contracts (cell_at i row)
                                    && notna (cell_at j row)) (rows data) |}
  | None, _ => filter_data_by_contract data contracts = Raise (KeyError "Contract")
  | Some _, None =>
      filter_data_by_contract data contracts
      = Raise (KeyError "End Date Actual")
  end.
Proof.
  unfold filter_data_by_contract, loc_isin, loc_notna, loc_by.
  destruct (position "Contract" (columns data)) as [i|]; simpl; [|done].
  destruct (position "End Date Actual" (columns data)) as [j|]; simpl; [|done].
  unfold rename; simpl. do 2 f_equal. apply filter_twice.
Qed.

(** The frame returned cannot be filtered again: its contract column has
    been renamed. *)
Theorem filter_data_by_contract_once (data curr : DataFrame)
    (contracts contracts' : list string) :
  filter_data_by_contract data contracts = Ok curr ->
  filter_data_by_contract curr contracts' = Raise (KeyError "Contract").
Proof.
  intros Hrun.
  destruct (filter_data_by_contract_Ok _ _ _ Hrun) as (i & j & _ & _ & Hc & _).
  unfold filter_data_by_contract, loc_isin, loc_by. rewrite Hc.
  rewrite renamed_labels_gone; [done|].
  apply elem_of_cons. right. apply elem_of_cons. by left.
Qed.

(** In a frame that did not already have the columns of the discovery
    primitive, the frame returned has a timestamp in every row and a listed
    contract as the case of every row. *)
Theorem filter_data_by_contract_events (data curr : DataFrame)
    (contracts : list string) :
  filter_data_by_contract data contracts = Ok curr ->
  "time:timestamp" ∉ columns data ->
  "case:concept:name" ∉ columns data ->
  exists stamps cases,
    column curr "time:timestamp" = Ok stamps /\
    column curr "case:concept:name" = Ok cases /\
    Forall (fun c => notna c = true) stamps /\
    Forall (fun c => exists s, c = Str s /\ s ∈ contracts) cases.
Proof.
  intros Hrun Htime Hcase.
  destruct (filter_data_by_contract_Ok _ _ _ Hrun) as (i & j & Hi & Hj & Hc & Hr).
  unfold column. rewrite Hc.
  rewrite (renamed_label_position _ "End Date Actual"), Hj;
    [|apply elem_of_cons; by left|done].
  rewrite (renamed_label_position _ "Contract"), Hi;
    [|apply elem_of_cons; right; apply elem_of_cons; by left|done].
  eexists _, _. split; [done|]. split; [done|]. rewrite Hr. split.
  - apply Forall_fmap, Forall_forall. intros row Hrow.
    apply list_elem_of_In, List.filter_In in Hrow as [_ Hrow].
    by apply andb_true_iff in Hrow as [_ ?].
  - apply Forall_fmap, Forall_forall. intros row Hrow.
    apply list_elem_of_In, List.filter_In in Hrow as [_ Hrow].
    apply andb_true_iff in Hrow as [Hrow _]. simpl.
    destruct (cell_at i row) as [| |s]; simpl in Hrow; try done.
    exists s. split; [done|].
    apply List.existsb_exists in Hrow as (s' & Hin & Heq).
    apply String.eqb_eq in Heq as ->. by apply list_elem_of_In.
Qed.

Section WithExternals.
Context `{Externals}.

(** The footprints of one contract in the analysis are those of the frame
    [filter_data_by_contract] returns for that contract alone. *)
Theorem contract_footprints_of_filtered_frame (data : DataFrame)
    (contract : string) (kpi_data : list KpiRow) (dfg : list footprint) :
  contract_view data contract = Ok (kpi_data, dfg) ->
  exists curr,
    filter_data_by_contract data [contract] = Ok curr /\
    discover_footprints curr = Ok dfg.
Proof.
  unfold contract_view, filter_data_by_contract, loc_isin, loc_eq, loc_notna,
    loc_by.
  destruct (position "Contract" (columns data)) as [i|]; simpl; [|done].
  intros Hrun. inv_bind Hrun. clear Ha. revert Hrun.
  destruct (position "End Date Actual" (columns data)) as [j|]; simpl; [|done].
  intros Hrun. inv_bind Hrun. injection Hrun as _ <-.
  eexists. split; [reflexivity|]. rewrite <- Ha.
  rewrite (List.filter_ext (fun row => cell_in [contract] (cell_at i row))
             (fun row => cell_is contract (cell_at i row))); [done|].
  intros row. apply cell_in_singleton.
Qed.

Lemma finalize_loop_total kpis (row : KpiRow) (rest : list KpiRow) base out :
  exists out', for_each (finalize_step kpis (row :: rest)) base out = Ok out'.
Proof.
  revert out. induction base as [|fp base IH]; intros out; simpl; [by eexists|].
  assert (exists out', finalize_step kpis (row :: rest) out fp = Ok out')
    as [out' ->]; [|apply IH].
  unfold finalize_step. destruct (kpis !! fp), out; by eexists.
Qed.

(** With the target table of [extract_kpi_information] the finalizing loop
    never raises. *)
Theorem finalize_with_kpi_information (data : DataFrame) (table : list KpiRow)
    (base : list footprint) (kpis : gmap footprint FootprintKpi) :
  extract_kpi_information data = Ok table ->
  exists out, finalize base kpis table = Ok out.
Proof.
  unfold extract_kpi_information. intros Hrun. repeat inv_bind Hrun.
  injection Hrun as <-. apply finalize_loop_total.
Qed.

End WithExternals.

End BaselineFacts.

(** ** Further facts about the attribution *)

Module AnalysisExtras.
Import Frame Analyzer AnalyzerFacts BaselineFacts.

Lemma finalize_loop_footprints kpis kpi_data_mnummer base
    (rs0 : list report) out :
  for_each (finalize_step kpis kpi_data_mnummer) base (tables_of rs0) = Ok out ->
  exists rs,
    out = tables_of (rs0 ++ rs) /\
    map (fun r => r.1.1) rs = filter (fun fp => is_Some (kpis !! fp)) base.
Proof.
  revert rs0. induction base as [|b base IH]; intros rs0 Hrun; simpl in Hrun.
  - injection Hrun as <-. exists []. by rewrite app_nil_r.
  - inv_bind Hrun.
    destruct (finalize_step_tables _ _ _ _ _ Ha)
      as [[Hk ->]|(k & soll & Hk & Hs & ->)];
      destruct (IH _ Hrun) as (rs & -> & Hrs).
    + exists rs. split; [done|]. rewrite filter_cons_False; [done|].
      rewrite Hk. by intros [? ?].
    + eexists (_ :: rs). split; [by rewrite <- app_assoc|].
      rewrite filter_cons_True by (by rewrite Hk). simpl. by rewrite Hrs.
Qed.

(** With an empty target table the finalizing loop raises at the first
    baseline footprint that owns an accumulator. *)
Lemma finalize_loop_no_target kpis base out :
  for_each (finalize_step kpis []) base out
  = if decide (Exists (fun fp => is_Some (kpis !! fp)) base)
    then Raise IndexError else Ok out.
Proof.
  induction base as [|b base IH]; cbn [for_each].
  - rewrite decide_False; [done|]. by intros Hex%Exists_nil.
  - assert (finalize_step kpis [] out b
            = match kpis !! b with Some _ => Raise IndexError | None => Ok out end)
      as ->.
    { unfold finalize_step. by destruct (kpis !! b). }
    destruct (kpis !! b) as [k|] eqn:Hk.
    + rewrite decide_True; [done|]. apply Exists_cons. left. by rewrite Hk.
    + unfold mbind, result_bind. rewrite IH. apply decide_ext. rewrite Exists_cons, Hk.
      split; [tauto | intros [[? ?]|?]; done].
Qed.

Section Shape.
Context `{Externals}.

Lemma baseline_NoDup data time case_id activity base :
  extract_footprints data time case_id activity = Ok base -> NoDup base.
Proof.
  unfold extract_footprints. intros Hrun. inv_bind Hrun.
  by eapply discover_footprints_keys.
Qed.

Lemma accumulator_iff_contributors data contracts base acc fp :
  NoDup base ->
  accumulate data contracts base = Ok acc ->
  is_Some (footprint_kpis acc !! fp)
  <-> fp ∈ base /\ contributors data fp contracts <> [].
Proof.
  intros Hnd Hacc. split.
  - intros [k Hk]. destruct (decide (fp ∈ base)) as [Hb|Hb].
    + split; [done|]. intros Hnil.
      destruct (accumulate_absent _ _ _ _ Hacc fp); [by right | congruence].
    + destruct (accumulate_absent _ _ _ _ Hacc fp); [by left | congruence].
  - intros [Hb Hne].
    destruct (accumulate_present _ _ _ _ Hnd Hacc fp Hb Hne)
      as (_ & k & _ & -> & _). done.
Qed.

Lemma filter_ext_elem {A : Type} (P Q : A -> Prop) `{forall x, Decision (P x)}
    `{forall x, Decision (Q x)} (l : list A) :
  (forall x, x ∈ l -> P x <-> Q x) -> filter P l = filter Q l.
Proof.
  induction l as [|x l IH]; intros Hext; [done|].
  rewrite !filter_cons, IH by (intros y Hy; apply Hext, elem_of_cons; by right).
  assert (P x <-> Q x) as Hx by (apply Hext, elem_of_cons; by left).
  repeat case_decide; tauto.
Qed.

Lemma analysis_rows (data : DataFrame) (contracts : list string)
    (kpi_data_mnummer : list KpiRow) (kv : KpiValues)
    (fc : gmap footprint (list string)) (d : DiffToSoll) :
  analyze_footprints_by_kpi data contracts kpi_data_mnummer = Ok (kv, fc, d) ->
  exists base acc (rs : list report),
    extract_footprints data "End Date Actual" "Contract" "Operation RelNr"
      = Ok base /\
    NoDup base /\
    accumulate data contracts base = Ok acc /\
    fc = footprint_contracts acc /\
    (kv, d) = tables_of rs /\
    map (fun r => r.1.1) rs
    = filter (fun fp => contributors data fp contracts <> []) base.
Proof.
  intros Hrun.
  destruct (analyze_Ok _ _ _ _ _ _ Hrun) as (base & acc & Hbase & Hacc & Hfin & ->).
  pose proof (baseline_NoDup _ _ _ _ _ Hbase) as Hnd.
  destruct (finalize_loop_footprints _ _ _ [] _ Hfin) as (rs & Hout & Hrs).
  exists base, acc, rs. repeat split; try done.
  rewrite Hrs. apply filter_ext_elem. intros fp Hfp.
  rewrite (accumulator_iff_contributors _ _ _ _ _ Hnd Hacc). tauto.
Qed.

(** The sequences of the two tables run in parallel: all have one entry for
    each reported footprint, and both label columns hold the labels of the
    footprints, in their order. *)
Theorem tables_are_parallel (data : DataFrame) (contracts : list string)
    (kpi_data_mnummer : list KpiRow) (kv : KpiValues)
    (fc : gmap footprint (list string)) (d : DiffToSoll) :
  analyze_footprints_by_kpi data contracts kpi_data_mnummer = Ok (kv, fc, d) ->
  kv_label kv = map label (kv_fp kv) /\
  d_Footprint d = map label (kv_fp kv) /\
  Forall (fun values : list Q => length values = length (kv_fp kv))
    [kv_OEE kv; kv_Lead_Time kv; kv_Malfunction_Duration kv;
     kv_Rejected_Materials kv; d_OEE d; d_Lead_Time d;
     d_Malfunction_Duration d; d_Rejected_Materials d].
Proof.
  intros Hrun.
  destruct (analysis_rows _ _ _ _ _ _ Hrun) as (_ & _ & rs & _ & _ & _ & _ & Hout & _).
  injection Hout as -> ->. simpl. rewrite !List.map_map.
  split; [done|]. split; [done|].
  repeat constructor; by rewrite !length_map.
Qed.

(** The reported footprints are the baseline footprints that some contract
    of the list exhibits, each once, in the order of the baseline. *)
Theorem reported_footprints (data : DataFrame) (contracts : list string)
    (kpi_data_mnummer : list KpiRow) (kv : KpiValues)
    (fc : gmap footprint (list string)) (d : DiffToSoll)
    (base : list footprint) :
  analyze_footprints_by_kpi data contracts kpi_data_mnummer = Ok (kv, fc, d) ->
  extract_footprints data "End Date Actual" "Contract" "Operation RelNr"
    = Ok base ->
  kv_fp kv = filter (fun fp => contributors data fp contracts <> []) base /\
  NoDup (kv_fp kv).
Proof.
  intros Hrun Hbase.
  destruct (analysis_rows _ _ _ _ _ _ Hrun)
    as (base' & _ & rs & Hbase' & Hnd & _ & _ & Hout & Hrs).
  rewrite Hbase in Hbase'. injection Hbase' as <-.
  injection Hout as -> ->. simpl. rewrite Hrs. split; [done|].
  by apply NoDup_filter.
Qed.

(** The keys of the footprint-to-contracts map are the reported footprints,
    and the value at a key lists, in processing order, the contracts that
    exhibit the footprint; no list is empty. *)
Theorem contracts_of_reported (data : DataFrame) (contracts : list string)
    (kpi_data_mnummer : list KpiRow) (kv : KpiValues)
    (fc : gmap footprint (list string)) (d : DiffToSoll)
    (fp : footprint) (cs : list string) :
  analyze_footprints_by_kpi data contracts kpi_data_mnummer = Ok (kv, fc, d) ->
  fc !! fp = Some cs
  <-> fp ∈ kv_fp kv /\ cs = contributors data fp contracts /\ cs <> [].
Proof.
  intros Hrun.
  destruct (analysis_rows _ _ _ _ _ _ Hrun)
    as (base & acc & rs & Hbase & Hnd & Hacc & -> & Hout & Hrs).
  injection Hout as -> ->. simpl. rewrite Hrs, list_elem_of_filter. split.
  - intros Hfc.
    assert (fp ∈ base /\ contributors data fp contracts <> []) as [Hb Hne].
    { destruct (decide (fp ∈ base)) as [Hb|Hb].
      - split; [done|]. intros Hnil.
        destruct (accumulate_absent _ _ _ _ Hacc fp); [by right | congruence].
      - destruct (accumulate_absent _ _ _ _ Hacc fp); [by left | congruence]. }
    destruct (accumulate_present _ _ _ _ Hnd Hacc fp Hb Hne) as (Hfc' & _).
    rewrite Hfc in Hfc'. injection Hfc' as ->. done.
  - intros ((Hne & Hb) & -> & _).
    by destruct (accumulate_present _ _ _ _ Hnd Hacc fp Hb Hne) as (-> & _).
Qed.

(** With an empty target table the analysis raises [IndexError] as soon as
    one baseline footprint has a contributor, and returns empty outputs
    when none has. *)
Theorem analysis_without_target (data : DataFrame) (contracts : list string)
    (base : list footprint) (acc : accumulators) :
  extract_footprints data "End Date Actual" "Contract" "Operation RelNr"
    = Ok base ->
  accumulate data contracts base = Ok acc ->
  analyze_footprints_by_kpi data contracts []
  = if decide (Exists (fun fp => contributors data fp contracts <> []) base)
    then Raise IndexError
    else Ok (no_tables.1, ∅, no_tables.2).
Proof.
  intros Hbase Hacc. pose proof (baseline_NoDup _ _ _ _ _ Hbase) as Hnd.
  unfold analyze_footprints_by_kpi, finalize. rewrite Hbase; simpl.
  rewrite Hacc; simpl. rewrite finalize_loop_no_target.
  assert (Exists (fun fp => is_Some (footprint_kpis acc !! fp)) base
          <-> Exists (fun fp => contributors data fp contracts <> []) base)
    as Hiff.
  { rewrite !Exists_exists. split; intros (fp & Hb & Hfp); exists fp;
      (split; [done|]);
      apply (accumulator_iff_contributors _ _ _ _ fp Hnd Hacc); tauto. }
  destruct (decide (Exists (fun fp => contributors data fp contracts <> []) base))
    as [Hex|Hex].
  - rewrite decide_True by tauto. done.
  - rewrite decide_False by tauto. simpl. do 3 f_equal.
    apply map_eq. intros fp. rewrite lookup_empty.
    destruct (accumulate_absent _ _ _ _ Hacc fp) as [_ ?]; [|done].
    destruct (decide (fp ∈ base)) as [Hb|Hb]; [right | by left].
    destruct (contributors data fp contracts) eqn:Hc; [done|].
    exfalso. apply Hex, Exists_exists. exists fp. by rewrite Hc.
Qed.

End Shape.

(** *** What the loops of the analysis raise *)

Lemma bind_Raise {A B : Type} (r : result A) (k : A -> result B) (e : error) :
  r ≫= k = Raise e -> r = Raise e \/ exists a, r = Ok a /\ k a = Raise e.
Proof. destruct r as [a|e']; simpl; [eauto | intros [= ->]; by left]. Qed.

Lemma for_each_Raise {A S : Type} (body : S -> A -> result S) (xs : list A)
    (st : S) (e : error) :
  for_each body xs st = Raise e ->
  exists x st', x ∈ xs /\ body st' x = Raise e.
Proof.
  revert st. induction xs as [|x xs IH]; intros st; simpl; [done|].
  intros [Hx|(st' & _ & Hrest)]%bind_Raise.
  - exists x, st. split; [by apply elem_of_cons; left | done].
  - destruct (IH _ Hrest) as (y & st'' & Hy & Hbody).
    exists y, st''. split; [by apply elem_of_cons; right | done].
Qed.

Lemma for_each_returns {A S : Type} (body : S -> A -> result S) (xs : list A) :
  (forall x, x ∈ xs -> forall st, exists st', body st x = Ok st') ->
  forall st, exists st', for_each body xs st = Ok st'.
Proof.
  induction xs as [|x xs IH]; intros Hbody st; simpl; [by eexists|].
  destruct (Hbody x (list_elem_of_here _ _) st) as [st' ->]. simpl.
  apply IH. intros y Hy. apply Hbody. by apply elem_of_cons; right.
Qed.

Lemma attribute_Raise kpi_data contract dfg acc fp e :
  attribute kpi_data contract dfg acc fp = Raise e ->
  e = IndexError /\ fp ∈ dfg /\ kpi_data = [].
Proof.
  unfold attribute. case_bool_decide as Hdfg; [|done].
  destruct kpi_data as [|row rest]; [|by destruct (footprint_kpis acc !! fp)].
  destruct (footprint_kpis acc !! fp); simpl; by intros [= <-].
Qed.

Section Errors.
Context `{Externals}.
Hypothesis nothing_in_nothing :
  forall (frame : DataFrame) (dfg : list footprint),
    rows frame = [] -> discover_footprints frame = Ok dfg -> dfg = [].

Lemma contract_view_nothing data contract dfg :
  contract_view data contract = Ok ([], dfg) -> dfg = [].
Proof.
  unfold contract_view. intros Hrun.
  inv_bind Hrun. inv_bind Hrun. inv_bind Hrun. inv_bind Hrun.
  injection Hrun as -> <-.
  apply contract_kpi_data_empty in Ha0.
  revert Ha2. apply nothing_in_nothing. simpl.
  unfold loc_notna in Ha1. destruct (loc_by_Ok _ _ _ _ Ha1) as (j & _ & _ & ->).
  by rewrite Ha0.
Qed.

Lemma contract_step_Raise data base acc contract e :
  contract_step data base acc contract = Raise e ->
  contract_view data contract = Raise e.
Proof.
  unfold contract_step.
  intros [Hr|([kpi_data dfg] & Hview & Hloop)]%bind_Raise; [done|].
  apply for_each_Raise in Hloop as (fp & acc' & _ & Hattr). simpl in Hattr.
  apply attribute_Raise in Hattr as (_ & Hfp & ->).
  apply contract_view_nothing in Hview as ->. by apply elem_of_nil in Hfp.
Qed.

Lemma contract_step_total data base acc contract view :
  contract_view data contract = Ok view ->
  exists acc', contract_step data base acc contract = Ok acc'.
Proof.
  intros Hview.
  destruct (contract_step data base acc contract) as [acc'|e] eqn:Hstep;
    [by eexists|].
  apply contract_step_Raise in Hstep. congruence.
Qed.

End Errors.

(** Provided the discovery primitive returns no footprint when it returns
    for a frame without rows, the attribution loop raises nothing: the
    iteration for a contract raises only what the computation of the
    contract's KPI table and footprints raises. *)
Theorem attribution_raises_nothing `{Externals} (data : DataFrame)
    (base : list footprint) (acc : accumulators) (contract : string)
    (e : error) :
  (forall (frame : DataFrame) (dfg : list footprint),
     rows frame = [] -> discover_footprints frame = Ok dfg -> dfg = []) ->
  contract_step data base acc contract = Raise e ->
  contract_view data contract = Raise e.
Proof. intros Hsane. by apply contract_step_Raise. Qed.

(** Under the same proviso the loops of the analysis add no failure: when
    the extraction of the baseline and the computation of the KPI table and
    footprints of every contract return and the target table has a row,
    the analysis returns. *)
Theorem analysis_returns `{Externals} (data : DataFrame)
    (contracts : list string) (kpi_data_mnummer : list KpiRow)
    (base : list footprint) :
  (forall (frame : DataFrame) (dfg : list footprint),
     rows frame = [] -> discover_footprints frame = Ok dfg -> dfg = []) ->
  extract_footprints data "End Date Actual" "Contract" "Operation RelNr"
    = Ok base ->
  Forall (fun contract => exists view, contract_view data contract = Ok view)
    contracts ->
  kpi_data_mnummer <> [] ->
  exists kv fc d,
    analyze_footprints_by_kpi data contracts kpi_data_mnummer = Ok (kv, fc, d).
Proof.
  intros Hsane Hbase Hviews Hrow.
  unfold analyze_footprints_by_kpi. rewrite Hbase; simpl.
  destruct (for_each_returns (contract_step data base) contracts)
    with (st := no_accumulators) as [acc Hacc].
  { intros c Hc st.
    destruct (proj1 (Forall_forall _ _) Hviews c Hc) as [view Hview].
    by eapply contract_step_total. }
  unfold accumulate. rewrite Hacc; simpl.
  destruct kpi_data_mnummer as [|row rest]; [done|].
  destruct (BaselineFacts.finalize_loop_total (footprint_kpis acc) row rest
              base no_tables) as [[kv d] Hout].
  unfold finalize. rewrite Hout; simpl. by eexists _, _, _.
Qed.

End AnalysisExtras.

(** ** The order of the contracts *)

Module ContractOrder.
Import Frame Analyzer AnalyzerFacts Baseline BaselineFacts AnalysisExtras.

Lemma filter_Permutation_bool {A : Type} (f : A -> bool) (xs ys : list A) :
  xs ≡ₚ ys -> List.filter f xs ≡ₚ List.filter f ys.
Proof.
  induction 1 as [|x xs ys _ IH|x y xs|xs ys zs _ IH1 _ IH2]; simpl.
  - done.
  - destruct (f x); [by constructor | done].
  - destruct (f x), (f y); try done. apply perm_swap.
  - by etransitivity.
Qed.

Lemma for_each_Ok_elem {A S : Type} (body : S -> A -> result S) (xs : list A)
    (st st' : S) (x : A) :
  for_each body xs st = Ok st' -> x ∈ xs ->
  exists st1 st2, body st1 x = Ok st2.
Proof.
  revert st. induction xs as [|y xs IH]; intros st Hrun Hx;
    [by apply elem_of_nil in Hx|].
  simpl in Hrun. inv_bind Hrun.
  apply elem_of_cons in Hx as [->|Hx]; [by eexists _, _ | by eapply IH].
Qed.

Lemma attribute_returns kpi_data contract dfg acc acc' fp acc1 :
  attribute kpi_data contract dfg acc fp = Ok acc1 ->
  exists acc2, attribute kpi_data contract dfg acc' fp = Ok acc2.
Proof.
  unfold attribute. case_bool_decide; [|by eexists].
  destruct kpi_data as [|row rest].
  - by destruct (footprint_kpis acc !! fp).
  - intros _. destruct (footprint_kpis acc' !! fp); by eexists.
Qed.

Section Order.
Context `{Externals}.

(** Whether the iteration for a contract returns does not depend on the
    accumulators it starts from. *)
Lemma contract_step_returns data base acc acc' contract acc1 :
  contract_step data base acc contract = Ok acc1 ->
  exists acc2, contract_step data base acc' contract = Ok acc2.
Proof.
  unfold contract_step. intros Hrun. inv_bind Hrun. rewrite Ha. simpl.
  apply for_each_returns. intros fp Hfp st.
  destruct (for_each_Ok_elem _ _ _ _ fp Hrun Hfp) as (st1 & st2 & Hstep).
  by eapply attribute_returns.
Qed.

Lemma accumulate_Permutation data contracts contracts' base acc :
  contracts ≡ₚ contracts' ->
  accumulate data contracts base = Ok acc ->
  exists acc', accumulate data contracts' base = Ok acc'.
Proof.
  intros Hp Hacc. apply for_each_returns. intros c Hc st.
  rewrite <- Hp in Hc.
  destruct (for_each_Ok_elem _ _ _ _ c Hacc Hc) as (st1 & st2 & Hstep).
  by eapply contract_step_returns.
Qed.

Lemma contributors_Permutation data fp contracts contracts' :
  contracts ≡ₚ contracts' ->
  contributors data fp contracts ≡ₚ contributors data fp contracts'.
Proof. apply filter_Permutation_bool. Qed.

Lemma contracts_lookup data contracts base acc fp cs :
  NoDup base ->
  accumulate data contracts base = Ok acc ->
  footprint_contracts acc !! fp = Some cs
  <-> fp ∈ base /\ cs = contributors data fp contracts /\ cs <> [].
Proof.
  intros Hnd Hacc. split.
  - intros Hfc.
    assert (fp ∈ base /\ contributors data fp contracts <> []) as [Hb Hne].
    { destruct (decide (fp ∈ base)) as [Hb|Hb].
      - split; [done|]. intros Hnil.
        destruct (accumulate_absent _ _ _ _ Hacc fp); [by right | congruence].
      - destruct (accumulate_absent _ _ _ _ Hacc fp); [by left | congruence]. }
    destruct (accumulate_present _ _ _ _ Hnd Hacc fp Hb Hne) as (Hfc' & _).
    rewrite Hfc in Hfc'. injection Hfc' as ->. done.
  - intros (Hb & -> & Hne).
    by destruct (accumulate_present _ _ _ _ Hnd Hacc fp Hb Hne) as (-> & _).
Qed.

Lemma contributors_nil_Permutation data fp contracts contracts' :
  contracts ≡ₚ contracts' ->
  contributors data fp contracts <> [] <-> contributors data fp contracts' <> [].
Proof.
  intros Hp.
  pose proof (contributors_Permutation data fp _ _ Hp) as Hc.
  split; intros Hne Hnil; apply Hne; rewrite Hnil in Hc.
  - by apply Permutation_nil_r in Hc.
  - by apply Permutation_nil_l in Hc.
Qed.

(** Processing the contracts in another order changes neither whether the
    analysis returns nor what it reports on: the same footprints in the
    same order, under the same labels, and for each footprint the same
    contracts, in the new order. *)
Theorem contract_order_irrelevant (data : DataFrame)
    (contracts contracts' : list string) (kpi_data_mnummer : list KpiRow)
    (kv : KpiValues) (fc : gmap footprint (list string)) (d : DiffToSoll) :
  contracts ≡ₚ contracts' ->
  analyze_footprints_by_kpi data contracts kpi_data_mnummer = Ok (kv, fc, d) ->
  exists (kv' : KpiValues) (fc' : gmap footprint (list string))
         (d' : DiffToSoll),
    analyze_footprints_by_kpi data contracts' kpi_data_mnummer
      = Ok (kv', fc', d') /\
    kv_fp kv' = kv_fp kv /\
    kv_label kv' = kv_label kv /\
    d_Footprint d' = d_Footprint d /\
    (forall fp cs,
       fc !! fp = Some cs -> exists cs', fc' !! fp = Some cs' /\ cs ≡ₚ cs').
Proof.
  intros Hp Hrun.
  destruct (analysis_rows _ _ _ _ _ _ Hrun)
    as (base & acc & rs & Hbase & Hnd & Hacc & -> & Hout & Hrs).
  destruct (accumulate_Permutation _ _ _ _ _ Hp Hacc) as [acc' Hacc'].
  assert (exists out', finalize base (footprint_kpis acc') kpi_data_mnummer = Ok out')
    as [[kv' d'] Hfin'].
  { destruct kpi_data_mnummer as [|row rest]; [|apply finalize_loop_total].
    destruct (analyze_Ok _ _ _ _ _ _ Hrun)
      as (base0 & acc0 & Hbase0 & Hacc0 & Hfin & _).
    rewrite Hbase in Hbase0. injection Hbase0 as <-.
    rewrite Hacc in Hacc0. injection Hacc0 as <-.
    unfold finalize in *. rewrite finalize_loop_no_target in Hfin |- *.
    case_decide as Hex; [done|]. rewrite decide_False; [by eexists|].
    intros (fp & Hb & Hfp)%Exists_exists. apply Hex, Exists_exists.
    exists fp. split; [done|].
    apply (accumulator_iff_contributors _ _ _ _ fp Hnd Hacc).
    apply (accumulator_iff_contributors _ _ _ _ fp Hnd Hacc') in Hfp as [_ Hne].
    split; [done|]. by apply (contributors_nil_Permutation data fp _ _ Hp). }
  assert (analyze_footprints_by_kpi data contracts' kpi_data_mnummer
          = Ok (kv', footprint_contracts acc', d')) as Hrun'.
  { unfold analyze_footprints_by_kpi. rewrite Hbase; simpl.
    rewrite Hacc'; simpl. by rewrite Hfin'. }
  exists kv', (footprint_contracts acc'), d'. split; [done|].
  destruct (analysis_rows _ _ _ _ _ _ Hrun')
    as (base' & acc'' & rs' & Hbase' & _ & Hacc'' & _ & Hout' & Hrs').
  rewrite Hbase in Hbase'. injection Hbase' as <-.
  rewrite Hacc' in Hacc''. injection Hacc'' as <-.
  assert (map (fun r : report => r.1.1) rs' = map (fun r : report => r.1.1) rs)
    as Hfps.
  { rewrite Hrs, Hrs'. apply filter_ext_elem. intros fp _.
    symmetry. by apply contributors_nil_Permutation. }
  injection Hout as -> ->. injection Hout' as -> ->. simpl.
  split; [done|].
  assert (map (fun r : report => label r.1.1) rs'
          = map (fun r : report => label r.1.1) rs) as Hlabels.
  { by rewrite <- !(List.map_map (fun r : report => r.1.1) label), Hfps. }
  split; [done|]. split; [done|].
  intros fp cs Hfc.
  apply (contracts_lookup _ _ _ _ _ _ Hnd Hacc) in Hfc as (Hb & -> & Hne).
  exists (contributors data fp contracts'). split.
  - apply (contracts_lookup _ _ _ _ _ _ Hnd Hacc'). split; [done|].
    split; [done|]. by apply (contributors_nil_Permutation data fp _ _ Hp).
  - by apply contributors_Permutation.
Qed.

End Order.

End ContractOrder.

(** ** Facts about the colouring of edges *)

Module GraphvizFacts.
Import Markings Graphviz.

Section Substitution.
Context {char : Type} (is_minus is_digit : char -> bool).
Hypothesis minus_is_no_digit : forall c, is_minus c = true -> is_digit c = false.

Local Abbreviation strip := (strip_minus_digit is_minus is_digit).

Lemma strip_before_minus (n : nat) (before rest : list char) (m : char) :
  (length before <= n)%nat -> is_minus m = true ->
  strip (before ++ m :: rest) = strip before ++ strip (m :: rest).
Proof.
  revert before. induction n as [|n IH]; intros before Hlen Hm.
  { destruct before; [done | simpl in Hlen; lia]. }
  destruct before as [|c [|d before]]; [done| |].
  - change (strip ([c] ++ m :: rest))
      with (if is_minus c && is_digit m then strip rest
            else c :: strip (m :: rest)).
    by rewrite (minus_is_no_digit m Hm), andb_false_r.
  - change (strip ((c :: d :: before) ++ m :: rest))
      with (if is_minus c && is_digit d then strip (before ++ m :: rest)
            else c :: strip ((d :: before) ++ m :: rest)).
    change (strip (c :: d :: before))
      with (if is_minus c && is_digit d then strip before
            else c :: strip (d :: before)).
    simpl in Hlen.
    destruct (is_minus c && is_digit d).
    + apply IH; [lia | done].
    + rewrite IH; [done | simpl; lia | done].
Qed.

Lemma strip_length (n : nat) (text : list char) :
  (length text <= n)%nat -> (length (strip text) <= length text)%nat.
Proof.
  revert text. induction n as [|n IH]; intros text Hlen.
  { destruct text; [done | simpl in Hlen; lia]. }
  destruct text as [|c [|d text]]; [done | done |].
  change (strip (c :: d :: text))
    with (if is_minus c && is_digit d then strip text
          else c :: strip (d :: text)).
  simpl in Hlen. destruct (is_minus c && is_digit d).
  - specialize (IH text). simpl. lia.
  - specialize (IH (d :: text)). simpl in *. lia.
Qed.

Lemma strip_unchanged (n : nat) (text : list char) :
  (length text <= n)%nat ->
  ~ minus_digit_in is_minus is_digit text -> strip text = text.
Proof.
  revert text. induction n as [|n IH]; intros text Hlen Hno.
  { destruct text; [done | simpl in Hlen; lia]. }
  destruct text as [|c [|d text]]; [done | done |].
  change (strip (c :: d :: text))
    with (if is_minus c && is_digit d then strip text
          else c :: strip (d :: text)).
  destruct (is_minus c && is_digit d) eqn:Hcd.
  - exfalso. apply Hno. apply andb_true_iff in Hcd as [? ?].
    by exists [], c, d, text.
  - f_equal. apply IH; [simpl in *; lia|].
    intros (before & m & d' & after & Heq & Hm & Hd). apply Hno.
    exists (c :: before), m, d', after. by rewrite Heq.
Qed.

(** A minus and the digit after it are both dropped, whatever stands before
    and after them: the digit is lost with the sign. *)
Theorem minus_and_digit_dropped (before after : list char) (m d : char) :
  is_minus m = true -> is_digit d = true ->
  strip_minus_digit is_minus is_digit (before ++ m :: d :: after)
  = strip_minus_digit is_minus is_digit before
      ++ strip_minus_digit is_minus is_digit after.
Proof.
  intros Hm Hd. rewrite (strip_before_minus (length before)) by done.
  f_equal. change (strip (m :: d :: after))
    with (if is_minus m && is_digit d then strip after
          else m :: strip (d :: after)).
  by rewrite Hm, Hd.
Qed.

(** The text is returned as it is exactly when no minus in it is directly
    followed by a digit. *)
Theorem text_kept_iff_no_minus_digit (text : list char) :
  strip_minus_digit is_minus is_digit text = text
  <-> ~ minus_digit_in is_minus is_digit text.
Proof.
  split; [|by apply (strip_unchanged (length text))].
  intros Hkept (before & m & d & after & -> & Hm & Hd).
  rewrite (strip_before_minus (length before)) in Hkept by done.
  change (strip (m :: d :: after))
    with (if is_minus m && is_digit d then strip after
          else m :: strip (d :: after)) in Hkept.
  rewrite Hm, Hd in Hkept. simpl in Hkept.
  apply (f_equal length) in Hkept. rewrite !length_app in Hkept. simpl in Hkept.
  pose proof (strip_length (length before) before (le_n _)).
  pose proof (strip_length (length after) after (le_n _)). lia.
Qed.

End Substitution.

(** *** Substrings *)

Lemma append_String (c : Ascii.ascii) (a b : string) :
  (String c a ++ b)%string = String c (a ++ b)%string.
Proof. reflexivity. Qed.

Lemma append_empty (b : string) : (EmptyString ++ b)%string = b.
Proof. reflexivity. Qed.

Lemma prefix_spec (sub text : string) :
  String.prefix sub text = true <-> exists rest, text = (sub ++ rest)%string.
Proof.
  revert text. induction sub as [|a sub IH]; intros text.
  - destruct text; simpl; (split; [by eexists | done]).
  - destruct text as [|b text]; simpl.
    { split; [done | intros [rest Hrest]; by rewrite append_String in Hrest]. }
    destruct (Ascii.ascii_dec a b) as [->|Hne].
    + rewrite IH. split; intros [rest Hrest]; exists rest;
        rewrite append_String in *; congruence.
    + split; [done | intros [rest Hrest]; rewrite append_String in Hrest;
                     congruence].
Qed.

Lemma contains_spec (sub text : string) :
  contains sub text = true
  <-> exists before rest, text = (before ++ sub ++ rest)%string.
Proof.
  induction text as [|c text IH]; cbn [contains].
  - rewrite orb_false_r, prefix_spec. split.
    + intros [rest ->]. by exists EmptyString, rest.
    + intros ([|? ?] & rest & Heq); [by exists rest|].
      by rewrite append_String in Heq.
  - rewrite orb_true_iff, prefix_spec, IH. split.
    + intros [[rest ->]|(before & rest & ->)].
      * by exists EmptyString, rest.
      * by exists (String c before), rest.
    + intros ([|c' before] & rest & Heq).
      * left. by exists rest.
      * right. rewrite append_String in Heq. injection Heq as -> ->.
        by exists before, rest.
Qed.

Lemma string_app_assoc (a b c : string) :
  ((a ++ b) ++ c = a ++ (b ++ c))%string.
Proof.
  induction a as [|x a IH]; [done|]. by rewrite !append_String, IH.
Qed.

Lemma contains_trans (a b text : string) :
  contains a b = true -> contains b text = true -> contains a text = true.
Proof.
  rewrite !contains_spec. intros (p1 & q1 & ->) (p2 & q2 & ->).
  exists (p2 ++ p1)%string, (q1 ++ q2)%string.
  by rewrite !string_app_assoc.
Qed.

(** *** Recolouring *)

Lemma recolor_labelled dot x y c edge :
  edge_labelled dot edge ->
  recolor dot x y c edge = Done (recolored dot x y c edge).
Proof.
  intros (a & b & Ha & Hb). unfold recolor, recolored, reached.
  rewrite Ha, Hb. by destruct (contains x a && contains y b).
Qed.

Lemma recolor_Done dot x y c edge edge' :
  recolor dot x y c edge = Done edge' -> edge_labelled dot edge.
Proof.
  unfold recolor, edge_labelled.
  destruct (label_of dot (edge_source edge)) as [a|]; [|done].
  destruct (label_of dot (edge_destination edge)) as [b|]; [|done].
  by exists a, b.
Qed.

Lemma recolor_all_labelled dot x y c edges :
  Forall (edge_labelled dot) edges ->
  recolor_all dot x y c edges = Done (map (recolored dot x y c) edges).
Proof.
  induction 1 as [|edge edges He _ IH]; simpl; [done|].
  by rewrite (recolor_labelled _ _ _ _ _ He), IH.
Qed.

Lemma recolor_all_Done dot x y c edges edges' :
  recolor_all dot x y c edges = Done edges' -> Forall (edge_labelled dot) edges.
Proof.
  revert edges'. induction edges as [|edge edges IH]; intros edges'; simpl;
    [by constructor|].
  destruct (recolor dot x y c edge) as [edge'|] eqn:He; [|done].
  destruct (recolor_all dot x y c edges) as [edges''|]; [|done].
  intros _. constructor; [by eapply recolor_Done | by eapply IH].
Qed.

Lemma dot_change_edge_color_Done dot x y c dot' :
  dot_change_edge_color dot x y c = Done dot' ->
  labelled dot /\
  dot' = {| node_list := node_list dot;
            edge_list := map (recolored dot x y c) (edge_list dot) |}.
Proof.
  unfold dot_change_edge_color.
  destruct (recolor_all dot x y c (edge_list dot)) as [edges|] eqn:Hall; [|done].
  intros [= <-]. pose proof (recolor_all_Done _ _ _ _ _ _ Hall) as Hl.
  split; [done|]. rewrite (recolor_all_labelled _ _ _ _ _ Hl) in Hall.
  by injection Hall as <-.
Qed.

Lemma label_of_nodes dot dot' name :
  node_list dot' = node_list dot -> label_of dot' name = label_of dot name.
Proof. unfold label_of, get_node_by_name. by intros ->. Qed.

Lemma reached_recolored dot dot' x y c a b edge :
  node_list dot' = node_list dot ->
  reached dot' a b (recolored dot x y c edge) = reached dot a b edge.
Proof.
  intros Hn. unfold reached.
  assert (edge_source (recolored dot x y c edge) = edge_source edge /\
          edge_destination (recolored dot x y c edge) = edge_destination edge)
    as [-> ->] by (unfold recolored; by destruct (reached dot x y edge)).
  by rewrite !(label_of_nodes _ _ _ Hn).
Qed.

Lemma edge_labelled_recolored dot dot' x y c edge :
  node_list dot' = node_list dot ->
  edge_labelled dot edge -> edge_labelled dot' (recolored dot x y c edge).
Proof.
  intros Hn (a & b & Ha & Hb). exists a, b. unfold recolored.
  destruct (reached dot x y edge); simpl; by rewrite !(label_of_nodes _ _ _ Hn).
Qed.

(** [dot_change_edge_color] returns exactly for a graph in which every edge
    joins two declared nodes that have a label; otherwise it raises. *)
Theorem recolouring_returns_iff_labelled (dot : Dot)
    (src_label dst_label color_name : string) :
  (exists dot', dot_change_edge_color dot src_label dst_label color_name
                = Done dot')
  <-> labelled dot.
Proof.
  split.
  - intros [dot' Hrun]. by apply dot_change_edge_color_Done in Hrun as [? _].
  - intros Hl. unfold dot_change_edge_color.
    rewrite (recolor_all_labelled _ _ _ _ _ Hl). by eexists.
Qed.

(** A recolouring changes nothing but colours: the nodes and the edges with
    their endpoints stay, in order; an edge gets the new colour when it is
    reached and keeps its own otherwise. *)
Theorem recolouring_changes_colours_only (dot dot' : Dot)
    (src_label dst_label color_name : string) :
  dot_change_edge_color dot src_label dst_label color_name = Done dot' ->
  node_list dot' = node_list dot /\
  Forall2 (fun edge edge' =>
             edge_source edge' = edge_source edge /\
             edge_destination edge' = edge_destination edge /\
             edge_color edge'
             = if reached dot src_label dst_label edge
               then Some color_name else edge_color edge)
    (edge_list dot) (edge_list dot').
Proof.
  intros Hrun. apply dot_change_edge_color_Done in Hrun as [_ ->]. simpl.
  split; [done|].
  induction (edge_list dot) as [|edge edges IH]; simpl; constructor; [|done].
  unfold recolored. by destruct (reached dot src_label dst_label edge).
Qed.

(** Recolouring twice with the same marking is recolouring once. *)
Theorem recolouring_idempotent (dot dot' : Dot)
    (src_label dst_label color_name : string) :
  dot_change_edge_color dot src_label dst_label color_name = Done dot' ->
  dot_change_edge_color dot' src_label dst_label color_name = Done dot'.
Proof.
  intros Hrun. apply dot_change_edge_color_Done in Hrun as [Hl ->].
  unfold dot_change_edge_color. simpl.
  rewrite recolor_all_labelled.
  - do 2 f_equal. rewrite List.map_map. apply List.map_ext. intros edge.
    unfold recolored at 1. rewrite reached_recolored by done.
    unfold recolored. by destruct (reached dot src_label dst_label edge).
  - apply Forall_fmap. eapply Forall_impl; [exact Hl|].
    intros edge He. by apply edge_labelled_recolored.
Qed.

(** Labels are matched as substrings: a marking reaches every edge that a
    marking with longer labels containing its own reaches. *)
Theorem shorter_labels_reach_more (dot : Dot)
    (src_label dst_label src_label' dst_label' : string) (edge : Edge) :
  contains src_label src_label' = true ->
  contains dst_label dst_label' = true ->
  reached dot src_label' dst_label' edge = true ->
  reached dot src_label dst_label edge = true.
Proof.
  intros Hs Hd. unfold reached.
  destruct (label_of dot (edge_source edge)) as [a|]; [|done].
  destruct (label_of dot (edge_destination edge)) as [b|]; [|done].
  rewrite !andb_true_iff. intros [? ?].
  split; by eapply contains_trans.
Qed.

Lemma last_reaching_cons dot m ms edge :
  last_reaching dot (m :: ms) edge
  = match last_reaching dot ms edge with
    | Some m' => Some m'
    | None => if reached dot (src m) (dest m) edge then Some m else None
    end.
Proof.
  unfold last_reaching. simpl. generalize (rev ms). intros l.
  induction l as [|m' l IH]; simpl; [done|].
  by destruct (reached dot (src m') (dest m') edge).
Qed.

(** When the loop over the markings returns, every edge has the colour of
    the last marking that reaches it, or its own when none does; nodes and
    endpoints are as before. *)
Theorem last_marking_wins (dot dot' : Dot) (edge_markings : list EdgeMarking) :
  apply_edge_markings dot edge_markings = Done dot' ->
  dot' = {| node_list := node_list dot;
            edge_list := map (marked dot edge_markings) (edge_list dot) |}.
Proof.
  revert dot. induction edge_markings as [|m ms IH]; intros dot; simpl.
  - intros [= <-]. destruct dot as [nodes edges]. simpl. f_equal.
    rewrite <- (List.map_id edges) at 1. apply List.map_ext.
    by intros [? ? ?].
  - destruct (dot_change_edge_color dot (src m) (dest m) (color m))
      as [dot1|] eqn:Hm; [|done].
    intros Hrun. apply IH in Hrun as ->.
    apply dot_change_edge_color_Done in Hm as [_ ->]. simpl. f_equal.
    rewrite List.map_map. apply List.map_ext. intros edge.
    unfold marked. rewrite last_reaching_cons.
    assert (last_reaching
              {| node_list := node_list dot;
                 edge_list := map (recolored dot (src m) (dest m) (color m))
                                (edge_list dot) |} ms
              (recolored dot (src m) (dest m) (color m) edge)
            = last_reaching dot ms edge) as ->.
    { unfold last_reaching. generalize (rev ms). intros l.
      induction l as [|m' l IHl]; simpl; [done|].
      by rewrite reached_recolored, IHl. }
    unfold recolored.
    destruct (last_reaching dot ms edge);
      by destruct (reached dot (src m) (dest m) edge).
Qed.

End GraphvizFacts.

(** ** The further facts at concrete inputs *)

Module MoreExamples.
Import Frame Analyzer Reference Classifier Plotting Markings Baseline Graphviz
  Samples.
Import ClassifierExtras OutlierFacts BaselineFacts AnalysisExtras ContractOrder
  GraphvizFacts.

Lemma palette_by_side_example :
  palette_of (determine_color 3 2 1 1 true) = Some Green.
Proof. refine (proj1 (palette_by_side 3 2 1 1 true) _). reflexivity. Defined.

Lemma severity_monotone_example :
  exists n1 n2 : nat,
    severity (determine_color 3 2 1 1 false) = Some n1 /\
    severity (determine_color 5 2 1 1 false) = Some n2 /\ (n1 <= n2)%nat.
Proof.
  refine (proj1 (severity_monotone 3 5 2 1 1 false) _ _);
    [reflexivity | discriminate].
Defined.

Lemma mean_is_neutral_example :
  fp_color (75 # 100) (75 # 100) (5 # 100) "OEE" = "blue".
Proof. apply mean_is_neutral. discriminate. Defined.

Lemma outliers_are_the_coloured_pairs_example :
  length [("A", "B"); ("C", "D")] = length ["#D0E7D2"; "#850000"] /\
  zip [("A", "B"); ("C", "D")] ["#D0E7D2"; "#850000"]
  = List.filter (fun p => negb (String.eqb p.2 "blue"))
      (zip sample_footprints
         (map (fun val => fp_color val (75 # 100) (5 # 100) "OEE")
            sample_values)) /\
  Forall (fun c => c <> "blue" /\ exists n, severity c = Some n)
    ["#D0E7D2"; "#850000"].
Proof.
  apply (outliers_are_the_coloured_pairs sample_footprints sample_values
           (75 # 100) (5 # 100) "OEE").
  reflexivity.
Defined.

Lemma scatter_agrees_with_outliers_example :
  exists colors,
    plt_scatter ["A -> B"; "B -> C"; "C -> D"] sample_values "o" colors
      ∈ draw_footprint_kpi_scatter ["A -> B"; "B -> C"; "C -> D"]
          sample_values (75 # 100) (5 # 100) "OEE per footprint" "Footprint"
          "OEE" /\
    length colors = length sample_values /\
    ["#D0E7D2"; "#850000"]
    = List.filter (fun c => negb (String.eqb c "blue")) colors.
Proof.
  apply (scatter_agrees_with_outliers sample_footprints _ sample_values
           (75 # 100) (5 # 100) _ _ "OEE" [("A", "B"); ("C", "D")]).
  reflexivity.
Defined.

Lemma edge_markings_pairing_example :
  extract_edge_markings sample_footprints ["#D0E7D2"] = Raise IndexError.
Proof.
  refine (proj1 (edge_markings_pairing sample_footprints ["#D0E7D2"]) _).
  simpl. lia.
Defined.

Lemma outliers_give_edge_markings_example :
  exists edge_markings,
    extract_edge_markings [("A", "B"); ("C", "D")] ["#D0E7D2"; "#850000"]
      = Ok edge_markings /\
    length edge_markings = length [("A", "B"); ("C", "D")] /\
    Forall (fun m => color m <> "blue" /\ (src m, dest m) ∈ sample_footprints)
      edge_markings.
Proof.
  apply (outliers_give_edge_markings sample_footprints sample_values
           (75 # 100) (5 # 100) "OEE").
  reflexivity.
Defined.

Ltac by_evaluation := apply (bool_decide_unpack _); vm_compute; exact I.

Lemma filter_data_by_contract_once_example :
  filter_data_by_contract production_X ["Y"] = Raise (KeyError "Contract").
Proof.
  apply (filter_data_by_contract_once production production_X ["X"] ["Y"]).
  vm_compute. reflexivity.
Defined.

Lemma filter_data_by_contract_events_example :
  exists stamps cases,
    column production_X "time:timestamp" = Ok stamps /\
    column production_X "case:concept:name" = Ok cases /\
    Forall (fun c => notna c = true) stamps /\
    Forall (fun c => exists s, c = Str s /\ s ∈ ["X"]) cases.
Proof.
  apply (filter_data_by_contract_events production production_X ["X"]).
  - vm_compute. reflexivity.
  - by_evaluation.
  - by_evaluation.
Defined.

Lemma contract_footprints_of_filtered_frame_example :
  exists curr,
    filter_data_by_contract production ["X"] = Ok curr /\
    discover_footprints curr = Ok [("A", "B")].
Proof.
  apply (contract_footprints_of_filtered_frame production "X"
           [ {| OEE := 180 # 200; Lead_Time := 200 # 2;
                Malfunction_Duration := 8 # 2; Rejected_Materials := 4 # 2 |} ]).
  vm_compute. reflexivity.
Defined.

Lemma finalize_with_kpi_information_example :
  exists out,
    finalize [("A", "B")] (footprint_kpis production_acc) production_target
    = Ok out.
Proof.
  apply (finalize_with_kpi_information production).
  vm_compute. reflexivity.
Defined.

Lemma tables_are_parallel_example :
  kv_label production_kv = map label (kv_fp production_kv) /\
  d_Footprint production_d = map label (kv_fp production_kv) /\
  Forall (fun values : list Q => length values = length (kv_fp production_kv))
    [kv_OEE production_kv; kv_Lead_Time production_kv;
     kv_Malfunction_Duration production_kv;
     kv_Rejected_Materials production_kv; d_OEE production_d;
     d_Lead_Time production_d; d_Malfunction_Duration production_d;
     d_Rejected_Materials production_d].
Proof.
  apply (tables_are_parallel production contracts_in_scope soll production_kv
           production_fc production_d).
  vm_compute. reflexivity.
Defined.

Lemma reported_footprints_example :
  kv_fp production_kv
  = filter (fun fp => contributors production fp contracts_in_scope <> [])
      [("A", "B")] /\
  NoDup (kv_fp production_kv).
Proof.
  apply (reported_footprints production contracts_in_scope soll production_kv
           production_fc production_d).
  - vm_compute. reflexivity.
  - vm_compute. reflexivity.
Defined.

Lemma contracts_of_reported_example :
  production_fc !! ("A", "B") = Some ["X"; "Y"]
  <-> ("A", "B") ∈ kv_fp production_kv /\
      ["X"; "Y"] = contributors production ("A", "B") contracts_in_scope /\
      ["X"; "Y"] <> [].
Proof.
  apply (contracts_of_reported production contracts_in_scope soll production_kv
           production_fc production_d).
  vm_compute. reflexivity.
Defined.

Lemma analysis_without_target_example :
  analyze_footprints_by_kpi production contracts_in_scope []
  = if decide (Exists (fun fp => contributors production fp contracts_in_scope
                                 <> []) [("A", "B")])
    then Raise IndexError
    else Ok (no_tables.1, ∅, no_tables.2).
Proof.
  apply (analysis_without_target production contracts_in_scope [("A", "B")]
           production_acc).
  - vm_compute. reflexivity.
  - vm_compute. reflexivity.
Defined.

Lemma attribution_raises_nothing_example :
  contract_view production "Q" = Raise ValueError.
Proof.
  apply (attribution_raises_nothing production [("A", "B")] no_accumulators
           "Q" ValueError).
  - exact Examples.reference_discover_empty.
  - vm_compute. reflexivity.
Defined.

Lemma analysis_returns_example :
  exists kv fc d,
    analyze_footprints_by_kpi production contracts_in_scope soll
    = Ok (kv, fc, d).
Proof.
  apply (analysis_returns production contracts_in_scope soll [("A", "B")]).
  - exact Examples.reference_discover_empty.
  - vm_compute. reflexivity.
  - repeat constructor; eexists; vm_compute; reflexivity.
  - discriminate.
Defined.

Lemma contract_order_irrelevant_example :
  exists (kv' : KpiValues) (fc' : gmap footprint (list string))
         (d' : DiffToSoll),
    analyze_footprints_by_kpi production (rev contracts_in_scope) soll
      = Ok (kv', fc', d') /\
    kv_fp kv' = kv_fp production_kv /\
    kv_label kv' = kv_label production_kv /\
    d_Footprint d' = d_Footprint production_d /\
    (forall fp cs,
       production_fc !! fp = Some cs ->
       exists cs', fc' !! fp = Some cs' /\ cs ≡ₚ cs').
Proof.
  apply (contract_order_irrelevant production contracts_in_scope
           (rev contracts_in_scope) soll production_kv production_fc
           production_d).
  - apply Permutation_rev.
  - vm_compute. reflexivity.
Defined.

Lemma ascii_minus_is_no_digit (c : Ascii.ascii) :
  ascii_minus c = true -> ascii_digit c = false.
Proof. intros Hc. apply Ascii.eqb_eq in Hc. by subst. Qed.

Lemma minus_and_digit_dropped_example :
  strip_minus_digit ascii_minus ascii_digit
    (sample_source_before
       ++ Ascii.ascii_of_nat 45 :: Ascii.ascii_of_nat 55 :: sample_source_after)
  = strip_minus_digit ascii_minus ascii_digit sample_source_before
      ++ strip_minus_digit ascii_minus ascii_digit sample_source_after.
Proof.
  apply (minus_and_digit_dropped ascii_minus ascii_digit
           ascii_minus_is_no_digit); reflexivity.
Defined.

Lemma text_kept_iff_no_minus_digit_example :
  strip_minus_digit ascii_minus ascii_digit sample_source_after
  = sample_source_after
  <-> ~ minus_digit_in ascii_minus ascii_digit sample_source_after.
Proof.
  apply (text_kept_iff_no_minus_digit ascii_minus ascii_digit
           ascii_minus_is_no_digit).
Defined.

Lemma recolouring_changes_colours_only_example :
  node_list sample_dot_once = node_list sample_dot /\
  Forall2 (fun edge edge' =>
             edge_source edge' = edge_source edge /\
             edge_destination edge' = edge_destination edge /\
             edge_color edge'
             = if reached sample_dot "10" "20" edge
               then Some "#F15A59" else edge_color edge)
    (edge_list sample_dot) (edge_list sample_dot_once).
Proof.
  apply (recolouring_changes_colours_only sample_dot sample_dot_once).
  vm_compute. reflexivity.
Defined.

Lemma recolouring_idempotent_example :
  dot_change_edge_color sample_dot_once "10" "20" "#F15A59"
  = Done sample_dot_once.
Proof.
  apply (recolouring_idempotent sample_dot). vm_compute. reflexivity.
Defined.

Lemma shorter_labels_reach_more_example :
  reached sample_dot "10" "20"
    {| edge_source := "n3"; edge_destination := "n4"; edge_color := None |}
  = true.
Proof.
  apply (shorter_labels_reach_more sample_dot "10" "20" "100" "200");
    reflexivity.
Defined.

Lemma last_marking_wins_example :
  sample_dot_marked
  = {| node_list := node_list sample_dot;
       edge_list := map (marked sample_dot sample_markings)
                      (edge_list sample_dot) |}.
Proof. apply last_marking_wins. vm_compute. reflexivity. Defined.

(** In the sample graph the marking for the operations 10 and 20 also
    colours the edge between the operations 100 and 200, which the second
    marking then colours again. *)
Example sample_dot_colours :
  map edge_color (edge_list sample_dot_once)
    = [Some "#F15A59"; Some "#F15A59"] /\
  map edge_color (edge_list sample_dot_marked)
    = [Some "#F15A59"; Some "#D0E7D2"].
Proof. split; reflexivity. Qed.

End MoreExamples.
